(** * pengine: the reasoning pipeline of [core/intelligence]

    A shallow embedding of [detector.py], [narrator.py] and [reasoning.py]
    and the properties of the insight miner, the mode decider, the narrative
    builder and the orchestrator.

    Conventions of the embedding.
    - A Python [float] is an exact rational ([Q]): there is no rounding, no
      overflow, no [inf] and no [nan].  [math.sqrt] is exact on squares of
      rationals and truncated to 2^-64 elsewhere ([Qsqrt]).
    - A Python exception is a value of [exn]; code that can raise returns
      [result A].
    - A row ([Dict]) is an association list from column names to scalars.
    - An f-string is kept as the list of its pieces ([text]): the literal
      parts and the formatted values, in order.
    - What [float] makes of a [str] is a variable of the detector section;
      the query analyzer (regular expressions) and the retrieval (an
      external store) are variables of the orchestrator section.  The
      properties hold for every choice of them. *)

From Stdlib Require Import ZArith QArith Qround Qabs Qminmax Lqa Lia.
From Stdlib Require Import List String Ascii Bool Permutation Sorted.
Import ListNotations.

Local Open Scope string_scope.
Local Open Scope Q_scope.

(** ** Exceptions and results *)

Inductive exn :=
| TypeError
| ValueError
| ZeroDivisionError
| StatisticsError.

Inductive result (A : Type) :=
| Ok (a : A)
| Raise (e : exn).

Arguments Ok {A} a.
Arguments Raise {A} e.

Definition bind {A B} (r : result A) (k : A -> result B) : result B :=
  match r with
  | Ok a => k a
  | Raise e => Raise e
  end.

Notation "x <- r ;; k" := (bind r (fun x => k))
  (at level 61, r at next level, right associativity).
Notation "' p <- r ;; k" := (bind r (fun x => let p := x in k))
  (at level 61, p pattern, r at next level, right associativity).

(** [try: r except: d] with a bare [except] clause. *)
Definition try_except {A} (r : result A) (d : A) : A :=
  match r with
  | Ok a => a
  | Raise _ => d
  end.

Definition is_ok {A} (r : result A) : bool :=
  match r with
  | Ok _ => true
  | Raise _ => false
  end.

(** ** Python scalars *)

Inductive pyval :=
| PNone
| PBool (b : bool)
| PInt (z : Z)
| PFloat (q : Q)
| PStr (s : string).

(** Truth value of a scalar ([if v:], [not v]). *)
Definition truthy (v : pyval) : bool :=
  match v with
  | PNone => false
  | PBool b => b
  | PInt z => negb (z =? 0)%Z
  | PFloat q => negb (Qeq_bool q 0)
  | PStr s => negb (s =? "")
  end.

Definition str_truthy (s : string) : bool := negb (s =? "").

Definition opt_str_truthy (o : option string) : bool :=
  match o with
  | Some s => str_truthy s
  | None => false
  end.

(** The number a [bool], [int] or [float] stands for. *)
Definition as_number (v : pyval) : option Q :=
  match v with
  | PBool b => Some (if b then 1 else 0)
  | PInt z => Some (inject_Z z)
  | PFloat q => Some q
  | _ => None
  end.

(** [a < b]: numbers compare with numbers, strings with strings, anything
    else is a [TypeError]. *)
Definition py_lt (a b : pyval) : result bool :=
  match as_number a, as_number b with
  | Some x, Some y => Ok (if Qlt_le_dec x y then true else false)
  | _, _ =>
      match a, b with
      | PStr s, PStr t => Ok (String.ltb s t)
      | _, _ => Raise TypeError
      end
  end.

Definition py_gt (a b : pyval) : result bool := py_lt b a.

(** [a == b] as a dict key: [1 == 1.0 == True]. *)
Definition py_eq (a b : pyval) : bool :=
  match as_number a, as_number b with
  | Some x, Some y => Qeq_bool x y
  | _, _ =>
      match a, b with
      | PStr s, PStr t => (s =? t)
      | PNone, PNone => true
      | _, _ => false
      end
  end.

(** ** Rows *)

Definition Dict := list (string * pyval).

Fixpoint dict_lookup (d : Dict) (k : string) : option pyval :=
  match d with
  | [] => None
  | (k', v) :: d' => if k' =? k then Some v else dict_lookup d' k
  end.

(** [k in d] *)
Definition dict_in (k : string) (d : Dict) : bool :=
  match dict_lookup d k with
  | Some _ => true
  | None => false
  end.

(** [d.get(k, default)] *)
Definition dict_get (d : Dict) (k : string) (default : pyval) : pyval :=
  match dict_lookup d k with
  | Some v => v
  | None => default
  end.

(** ** Numbers *)

Definition Qltb (x y : Q) : bool := if Qlt_le_dec x y then true else false.

(** [x / y] on floats. *)
Definition py_div (x y : Q) : result Q :=
  if Qeq_bool y 0 then Raise ZeroDivisionError else Ok (x / y).

(** Round half to even. *)
Definition round_half_even (q : Q) : Z :=
  let f := Qfloor q in
  let r := q - inject_Z f in
  if Qltb r (1 # 2) then f
  else if Qltb (1 # 2) r then (f + 1)%Z
  else if Z.even f then f else (f + 1)%Z.

(** [round(x, 2)] *)
Definition round2 (x : Q) : Q := Qred (round_half_even (x * 100) # 100).

(** [math.sqrt], see the conventions above. *)
Definition Qsqrt (q : Q) : Q :=
  let n := Qnum q in
  let d := Z.pos (Qden q) in
  let s := (2 ^ 64)%Z in
  Qred (Qmake (Z.sqrt (n * d * s * s)) (Z.to_pos (d * s))).

(** ** Strings (ASCII) *)

Definition ascii_lower (c : ascii) : ascii :=
  let n := nat_of_ascii c in
  if ((65 <=? n) && (n <=? 90))%nat then ascii_of_nat (n + 32) else c.

Definition ascii_upper (c : ascii) : ascii :=
  let n := nat_of_ascii c in
  if ((97 <=? n) && (n <=? 122))%nat then ascii_of_nat (n - 32) else c.

Definition ascii_is_alpha (c : ascii) : bool :=
  let n := nat_of_ascii c in
  (((65 <=? n) && (n <=? 90)) || ((97 <=? n) && (n <=? 122)))%nat.

(** [s.lower()] *)
Fixpoint lower (s : string) : string :=
  match s with
  | EmptyString => EmptyString
  | String c s' => String (ascii_lower c) (lower s')
  end.

(** [s.replace('_', ' ')] *)
Fixpoint replace_underscore (s : string) : string :=
  match s with
  | EmptyString => EmptyString
  | String c s' =>
      String (if Ascii.eqb c "_"%char then " "%char else c) (replace_underscore s')
  end.

(** [s.title()]: a letter that follows a non-letter is upper-cased, every
    other letter lower-cased. *)
Fixpoint title_from (prev_alpha : bool) (s : string) : string :=
  match s with
  | EmptyString => EmptyString
  | String c s' =>
      String (if prev_alpha then ascii_lower c else ascii_upper c)
             (title_from (ascii_is_alpha c) s')
  end.

Definition title (s : string) : string := title_from false s.

(** [p in s] on strings. *)
Fixpoint contains (p s : string) : bool :=
  String.prefix p s ||
  match s with
  | EmptyString => false
  | String _ s' => contains p s'
  end.

(** [s[:n]] *)
Definition take_str (n : nat) (s : string) : string := String.substring 0 n s.

(** ** f-strings *)

Inductive frag :=
| Lit (s : string)       (* literal text, or a [str] placed as it is *)
| Fixed1 (q : Q)         (* [{q:.1f}] *)
| Signed1 (q : Q)        (* [{q:+.1f}] *)
| Str (v : pyval).       (* [{v}], that is [str(v)] *)

Definition text := list frag.

(** A piece that renders to the empty string. *)
Definition frag_empty (f : frag) : bool :=
  match f with
  | Lit s => s =? ""
  | Str (PStr s) => s =? ""
  | _ => false
  end.

(** Truth value of a [str] built from pieces. *)
Definition text_truthy (t : text) : bool := negb (forallb frag_empty t).

(** [format(v, ".1f")]: [None] has no such format, a [str] rejects the
    code [f]. *)
Definition fmt1 (v : pyval) : result frag :=
  match v with
  | PNone => Raise TypeError
  | PStr _ => Raise ValueError
  | PBool b => Ok (Fixed1 (if b then 1 else 0))
  | PInt z => Ok (Fixed1 (inject_Z z))
  | PFloat q => Ok (Fixed1 q)
  end.

(** ** Sorting

    [sorted] is stable and uses [<] only; an exception of a comparison
    leaves the call. *)

Fixpoint insert_by {A} (lt : A -> A -> result bool) (x : A) (l : list A)
  : result (list A) :=
  match l with
  | [] => Ok [x]
  | y :: l' =>
      b <- lt y x ;;
      if b then r <- insert_by lt x l' ;; Ok (y :: r) else Ok (x :: l)
  end.

Fixpoint sort_by {A} (lt : A -> A -> result bool) (l : list A)
  : result (list A) :=
  match l with
  | [] => Ok []
  | x :: l' => s <- sort_by lt l' ;; insert_by lt x s
  end.

(** [sorted(data, key=key)] *)
Definition py_sorted {A} (key : A -> pyval) (data : list A) : result (list A) :=
  sort_by (fun a b => py_lt (key a) (key b)) data.

(** The same on float keys, where [<] cannot fail. *)
Fixpoint insert_float {A} (before : Q -> Q -> bool) (key : A -> Q) (x : A)
  (l : list A) : list A :=
  match l with
  | [] => [x]
  | y :: l' =>
      if before (key y) (key x) then y :: insert_float before key x l'
      else x :: l
  end.

Fixpoint sort_float {A} (before : Q -> Q -> bool) (key : A -> Q) (l : list A)
  : list A :=
  match l with
  | [] => []
  | x :: l' => insert_float before key x (sort_float before key l')
  end.

(** [sorted(l, key=key)] and [sorted(l, key=key, reverse=True)] *)
Definition sorted_asc {A} (key : A -> Q) (l : list A) : list A :=
  sort_float Qltb key l.

Definition sorted_desc {A} (key : A -> Q) (l : list A) : list A :=
  sort_float (fun a b => Qltb b a) key l.

(** ** [statistics] *)

Definition Qsum (l : list Q) : Q := fold_left Qplus l 0.

Definition len {A} (l : list A) : Q := inject_Z (Z.of_nat (List.length l)).

Definition statistics_mean (values : list Q) : result Q :=
  match values with
  | [] => Raise StatisticsError
  | _ => Ok (Qsum values / len values)
  end.

Definition statistics_median (values : list Q) : result Q :=
  let data := sorted_asc (fun x => x) values in
  let n := List.length data in
  match n with
  | O => Raise StatisticsError
  | _ =>
      if Nat.odd n then Ok (nth (n / 2) data 0)
      else Ok ((nth (n / 2 - 1) data 0 + nth (n / 2) data 0) / 2)
  end.

Definition statistics_variance (values : list Q) : result Q :=
  if (List.length values <? 2)%nat then Raise StatisticsError
  else
    xbar <- statistics_mean values ;;
    Ok (Qsum (map (fun x => (x - xbar) * (x - xbar)) values)
        / (len values - 1)).

Definition statistics_stdev (values : list Q) : result Q :=
  var <- statistics_variance values ;;
  Ok (Qsqrt var).

(** ** Insights ([detector.py]) *)

Inductive InsightType :=
| GROWTH | DECLINE | COMPARISON | RANKING | DISTRIBUTION
| CORRELATION | ANOMALY | THRESHOLD | STABILITY.

Inductive Sentiment := POSITIVE | NEGATIVE | NEUTRAL | WARNING.

Definition InsightType_value (t : InsightType) : string :=
  match t with
  | GROWTH => "growth" | DECLINE => "decline" | COMPARISON => "comparison"
  | RANKING => "ranking" | DISTRIBUTION => "distribution"
  | CORRELATION => "correlation" | ANOMALY => "anomaly"
  | THRESHOLD => "threshold" | STABILITY => "stability"
  end.

Definition Sentiment_value (s : Sentiment) : string :=
  match s with
  | POSITIVE => "positive" | NEGATIVE => "negative"
  | NEUTRAL => "neutral" | WARNING => "warning"
  end.

Definition InsightType_eqb (a b : InsightType) : bool :=
  InsightType_value a =? InsightType_value b.

Definition Sentiment_eqb (a b : Sentiment) : bool :=
  Sentiment_value a =? Sentiment_value b.

(** The dataclass [DetectedInsight].  Its defaults are [previous_value],
    [change_absolute], [change_percentage] and [time_range] [None],
    [direction] "stable", [magnitude] "moderate", [velocity] "gradual",
    [human_impact] "", [sentiment] [NEUTRAL], [recommended_template]
    "hero_stat", [confidence] 0.8 and no [data_points]. *)
Record DetectedInsight := {
  insight_type : InsightType;
  summary : text;
  metric_name : string;
  current_value : pyval;
  previous_value : pyval;
  change_absolute : option Q;
  change_percentage : option Q;
  direction : string;
  magnitude : string;
  velocity : string;
  human_impact : text;
  sentiment : Sentiment;
  recommended_template : string;
  confidence : Q;
  data_points : list Dict;
  time_range : option (pyval * pyval)
}.

Definition CHANGE_THRESHOLDS_small : Q := 5.
Definition CHANGE_THRESHOLDS_moderate : Q := 15.
Definition CHANGE_THRESHOLDS_large : Q := 30.

Definition POSITIVE_METRICS : list string :=
  ["literacy"; "enrollment"; "growth"; "income"; "revenue";
   "vaccination"; "employment"; "forest_cover"; "life_expectancy"].

Definition NEGATIVE_METRICS : list string :=
  ["dropout"; "mortality"; "crime"; "pollution"; "unemployment";
   "poverty"; "disease"; "deaths"; "decline"].

Definition _determine_sentiment (metric direction : string) : Sentiment :=
  let metric_lower := lower metric in
  let is_positive_metric := existsb (fun p => contains p metric_lower) POSITIVE_METRICS in
  let is_negative_metric := existsb (fun n => contains n metric_lower) NEGATIVE_METRICS in
  if direction =? "up" then
    if is_positive_metric then POSITIVE
    else if is_negative_metric then NEGATIVE
    else NEUTRAL
  else if direction =? "down" then
    if is_positive_metric then NEGATIVE
    else if is_negative_metric then POSITIVE
    else NEUTRAL
  else NEUTRAL.

Definition _generate_human_impact (metric direction magnitude : string)
  (change_pct : Q) : text :=
  let metric_clean := title (replace_underscore metric) in
  let positive := existsb (fun p => contains p (lower metric)) POSITIVE_METRICS in
  let magnitude_word :=
    if magnitude =? "small" then "slightly"
    else if magnitude =? "moderate" then "noticeably"
    else if magnitude =? "large" then "significantly"
    else if magnitude =? "dramatic" then "dramatically"
    else "" in
  let direction_word :=
    if direction =? "up" then (if positive then "improved" else "increased")
    else if direction =? "down" then (if positive then "declined" else "decreased")
    else if direction =? "stable" then "remained stable"
    else "changed" in
  [Lit metric_clean; Lit " has "; Lit magnitude_word; Lit " ";
   Lit direction_word; Lit " by "; Fixed1 (Qabs change_pct); Lit "%"].

Definition _select_template (t : InsightType) (magnitude : string)
  (data_points : nat) : string :=
  match t with
  | GROWTH | DECLINE => if (3 <? data_points)%nat then "trend_line" else "hero_stat"
  | COMPARISON => "versus"
  | RANKING => "ranking_bar"
  | DISTRIBUTION => "pie_breakdown"
  | CORRELATION => "trend_line"
  | ANOMALY | THRESHOLD | STABILITY => "hero_stat"
  end.

Definition _build_trend_summary (metric direction : string) (change_pct : Q)
  (time_range : pyval * pyval) : text :=
  let metric_clean := title (replace_underscore metric) in
  let verb :=
    if direction =? "up" then "increased"
    else if direction =? "down" then "decreased"
    else "remained stable" in
  [Lit metric_clean; Lit " "; Lit verb; Lit " by "; Fixed1 (Qabs change_pct);
   Lit "% from "; Str (fst time_range); Lit " to "; Str (snd time_range)].

(** A column argument that is given and not empty ([if time_column and ...]). *)
Definition col_given (c : option string) : bool := opt_str_truthy c.

(** [group_values]: a dict from group to [(value, time_val)], in insertion
    order; assigning to a key that is there keeps its place. *)
Definition Groups := list (pyval * (Q * pyval)).

Fixpoint groups_lookup (gv : Groups) (g : pyval) : option (Q * pyval) :=
  match gv with
  | [] => None
  | (g', v) :: gv' => if py_eq g' g then Some v else groups_lookup gv' g
  end.

Fixpoint groups_set (gv : Groups) (g : pyval) (v : Q * pyval) : Groups :=
  match gv with
  | [] => [(g, v)]
  | (g', v') :: gv' =>
      if py_eq g' g then (g', v) :: gv' else (g', v') :: groups_set gv' g v
  end.

Section InsightDetector.

(** [float(s)] on a [str]: [None] stands for the [ValueError] of a string
    that is no number. *)
Variable str_to_float : string -> option Q.

Definition py_float (v : pyval) : result Q :=
  match v with
  | PNone => Raise TypeError
  | PBool b => Ok (if b then 1 else 0)
  | PInt z => Ok (inject_Z z)
  | PFloat q => Ok q
  | PStr s =>
      match str_to_float s with
      | Some q => Ok q
      | None => Raise ValueError
      end
  end.

(** The loop [for row in data: try: values.append(float(row.get(col, 0)))
    except: continue]. *)
Fixpoint numeric_values (data : list Dict) (metric_col : string) : list Q :=
  match data with
  | [] => []
  | row :: rest =>
      match py_float (dict_get row metric_col (PInt 0)) with
      | Ok v => v :: numeric_values rest metric_col
      | Raise _ => numeric_values rest metric_col
      end
  end.

(** [sorted(data, key=lambda x: x.get(time_col, 0))] inside [try], with
    [sorted_data = data] in the [except] branch. *)
Definition sorted_by_time (data : list Dict) (time_col : string) : list Dict :=
  try_except (py_sorted (fun x => dict_get x time_col (PInt 0)) data) data.

Definition trend_direction (change_pct : Q) : InsightType * string :=
  if Qltb 2 change_pct then (GROWTH, "up")
  else if Qltb change_pct (-2) then (DECLINE, "down")
  else (STABILITY, "stable").

Definition trend_magnitude (change_pct : Q) : string :=
  let abs_pct := Qabs change_pct in
  if Qltb abs_pct CHANGE_THRESHOLDS_small then "small"
  else if Qltb abs_pct CHANGE_THRESHOLDS_moderate then "moderate"
  else if Qltb abs_pct CHANGE_THRESHOLDS_large then "large"
  else "dramatic".

Definition trend_velocity (sorted_data : list Dict) (metric_col : string)
  (first_val last_val : Q) : result string :=
  if (3 <=? List.length sorted_data)%nat then
    let mid_idx := (List.length sorted_data / 2)%nat in
    mid_val <- py_float (dict_get (nth mid_idx sorted_data []) metric_col (PFloat first_val)) ;;
    let first_half_change := Qabs (mid_val - first_val) in
    let second_half_change := Qabs (last_val - mid_val) in
    if Qltb (first_half_change * 1.5) second_half_change then Ok "accelerating"
    else if Qltb (second_half_change * 1.5) first_half_change then Ok "decelerating"
    else Ok "steady"
  else Ok "gradual".

Definition _detect_trends (data : list Dict) (metric_col time_col : string)
  : result (list DetectedInsight) :=
  let sorted_data := sorted_by_time data time_col in
  if (List.length sorted_data <? 2)%nat then Ok []
  else
    let first_row := nth 0 sorted_data [] in
    let last_row := last sorted_data [] in
    match (first_val <- py_float (dict_get first_row metric_col (PInt 0)) ;;
           last_val <- py_float (dict_get last_row metric_col (PInt 0)) ;;
           Ok (first_val, last_val)) with
    | Raise ValueError | Raise TypeError => Ok []
    | Raise e => Raise e
    | Ok (first_val, last_val) =>
        if Qeq_bool first_val 0 then Ok []
        else
          let change_abs := last_val - first_val in
          q <- py_div change_abs first_val ;;
          let change_pct := q * 100 in
          let '(insight_type, direction) := trend_direction change_pct in
          let magnitude := trend_magnitude change_pct in
          velocity <- trend_velocity sorted_data metric_col first_val last_val ;;
          let sentiment := _determine_sentiment metric_col direction in
          let human_impact :=
            _generate_human_impact metric_col direction magnitude change_pct in
          let template :=
            _select_template insight_type magnitude (List.length sorted_data) in
          let time_range :=
            (dict_get first_row time_col PNone, dict_get last_row time_col PNone) in
          let summary :=
            _build_trend_summary metric_col direction change_pct time_range in
          Ok [ {| insight_type := insight_type;
                  summary := summary;
                  metric_name := metric_col;
                  current_value := PFloat last_val;
                  previous_value := PFloat first_val;
                  change_absolute := Some (round2 change_abs);
                  change_percentage := Some (round2 change_pct);
                  direction := direction;
                  magnitude := magnitude;
                  velocity := velocity;
                  human_impact := human_impact;
                  sentiment := sentiment;
                  recommended_template := template;
                  confidence := 0.85;
                  data_points := sorted_data;
                  time_range := Some time_range |} ]
    end.

(** The loop of [_detect_comparisons] that fills [group_values]. *)
Fixpoint collect_groups (data : list Dict) (metric_col group_col : string)
  (time_col : option string) (group_values : Groups) : result Groups :=
  match data with
  | [] => Ok group_values
  | row :: rest =>
      let group := dict_get row group_col PNone in
      if negb (truthy group) then
        collect_groups rest metric_col group_col time_col group_values
      else
        match py_float (dict_get row metric_col (PInt 0)) with
        | Raise _ => collect_groups rest metric_col group_col time_col group_values
        | Ok value =>
            match time_col with
            | Some tc =>
                if str_truthy tc then
                  let time_val := dict_get row tc (PInt 0) in
                  newer <- match groups_lookup group_values group with
                           | None => Ok true
                           | Some (_, seen) => py_gt time_val seen
                           end ;;
                  collect_groups rest metric_col group_col time_col
                    (if newer then groups_set group_values group (value, time_val)
                     else group_values)
                else
                  collect_groups rest metric_col group_col time_col
                    (groups_set group_values group (value, PInt 0))
            | None =>
                collect_groups rest metric_col group_col time_col
                  (groups_set group_values group (value, PInt 0))
            end
        end
  end.

Definition _detect_comparisons (data : list Dict) (metric_col group_col : string)
  (time_col : option string) : result (list DetectedInsight) :=
  group_values <- collect_groups data metric_col group_col time_col [] ;;
  if (List.length group_values <? 2)%nat then Ok []
  else
    let sorted_groups :=
      sorted_desc snd (map (fun gv => (fst gv, fst (snd gv))) group_values) in
    let '(top_group, top_val) := nth 0 sorted_groups (PNone, 0) in
    let '(bottom_group, bottom_val) := last sorted_groups (PNone, 0) in
    let ranking_summary :=
      [Str top_group; Lit " leads with "; Lit metric_col; Lit " at ";
       Fixed1 top_val; Lit ", while "; Str bottom_group; Lit " trails at ";
       Fixed1 bottom_val] in
    pct <- (if negb (Qeq_bool bottom_val 0) then
              q <- py_div (top_val - bottom_val) bottom_val ;; Ok (q * 100)
            else Ok 0) ;;
    ratio <- py_div (top_val - bottom_val) (Qmax bottom_val 1) ;;
    Ok [ {| insight_type := RANKING;
            summary := ranking_summary;
            metric_name := metric_col;
            current_value := PFloat top_val;
            previous_value := PFloat bottom_val;
            change_absolute := Some (round2 (top_val - bottom_val));
            change_percentage := Some (round2 pct);
            direction := "comparison";
            magnitude := if Qltb 0.2 ratio then "large" else "moderate";
            velocity := "gradual";
            human_impact :=
              [Lit "Gap between best and worst performers is ";
               Fixed1 (top_val - bottom_val); Lit " points"];
            sentiment := NEUTRAL;
            recommended_template := "ranking_bar";
            confidence := 0.9;
            data_points :=
              map (fun gv => [("group", fst gv); ("value", PFloat (snd gv))])
                  sorted_groups;
            time_range := None |} ].

Definition _detect_distribution (data : list Dict) (metric_col : string)
  : result (option DetectedInsight) :=
  let values := numeric_values data metric_col in
  if (List.length values <? 3)%nat then Ok None
  else
    mean_val <- statistics_mean values ;;
    median_val <- statistics_median values ;;
    stdev <- (if (1 <? List.length values)%nat then statistics_stdev values
              else Ok 0) ;;
    skew_indicator <- (if Qltb 0 stdev then py_div (mean_val - median_val) stdev
                       else Ok 0) ;;
    let distribution_type :=
      if Qltb 0.5 (Qabs skew_indicator) then "skewed" else "balanced" in
    Ok (Some
      {| insight_type := DISTRIBUTION;
         summary :=
           [Lit metric_col; Lit " has a "; Lit distribution_type;
            Lit " distribution with average "; Fixed1 mean_val;
            Lit " (median: "; Fixed1 median_val; Lit ")"];
         metric_name := metric_col;
         current_value := PFloat mean_val;
         previous_value := PFloat median_val;
         change_absolute := None;
         change_percentage := None;
         direction := "stable";
         magnitude := "moderate";
         velocity := "gradual";
         human_impact := [Lit "Most values cluster around "; Fixed1 median_val];
         sentiment := NEUTRAL;
         recommended_template := "pie_breakdown";
         confidence := 0.75;
         data_points :=
           [[("mean", PFloat mean_val); ("median", PFloat median_val);
             ("stdev", PFloat stdev)]];
         time_range := None |}).

(** The second loop of [_detect_anomalies]: one insight per outlier row. *)
Fixpoint outliers (data : list Dict) (metric_col : string)
  (group_col : option string) (mean_val stdev : Q)
  : result (list DetectedInsight) :=
  match data with
  | [] => Ok []
  | row :: rest =>
      match py_float (dict_get row metric_col (PInt 0)) with
      | Raise _ => outliers rest metric_col group_col mean_val stdev
      | Ok val =>
          z_score <- py_div (val - mean_val) stdev ;;
          if Qltb 2 (Qabs z_score) then
            let group_name :=
              match group_col with
              | Some gc =>
                  if str_truthy gc then dict_get row gc (PStr "This value")
                  else PStr "This value"
              | None => PStr "This value"
              end in
            let direction := if Qltb 0 z_score then "high" else "low" in
            let summary :=
              [Str group_name; Lit " shows unusually "; Lit direction; Lit " ";
               Lit metric_col; Lit " at "; Fixed1 val; Lit " (average: ";
               Fixed1 mean_val; Lit ")"] in
            q <- py_div (val - mean_val) mean_val ;;
            more <- outliers rest metric_col group_col mean_val stdev ;;
            Ok ({| insight_type := ANOMALY;
                   summary := summary;
                   metric_name := metric_col;
                   current_value := PFloat val;
                   previous_value := PFloat mean_val;
                   change_absolute := None;
                   change_percentage := Some (round2 (q * 100));
                   direction := direction;
                   magnitude := "dramatic";
                   velocity := "gradual";
                   human_impact :=
                     [Lit "This is "; Fixed1 (Qabs z_score);
                      Lit " standard deviations from normal"];
                   sentiment := WARNING;
                   recommended_template := "hero_stat";
                   confidence := 0.7;
                   data_points := [row];
                   time_range := None |} :: more)
          else outliers rest metric_col group_col mean_val stdev
      end
  end.

Definition _detect_anomalies (data : list Dict) (metric_col : string)
  (group_col : option string) : result (list DetectedInsight) :=
  let values := numeric_values data metric_col in
  if (List.length values <? 5)%nat then Ok []
  else
    mean_val <- statistics_mean values ;;
    stdev <- statistics_stdev values ;;
    if Qeq_bool stdev 0 then Ok []
    else
      insights <- outliers data metric_col group_col mean_val stdev ;;
      Ok (firstn 3 insights).

Definition detect_from_data (data : list Dict) (metric_column : string)
  (time_column group_column : option string) : result (list DetectedInsight) :=
  match data with
  | [] => Ok []
  | row0 :: _ =>
      if negb (dict_in metric_column row0) then Ok []
      else
        trend_insights <-
          match time_column with
          | Some tc =>
              if str_truthy tc && dict_in tc row0
              then _detect_trends data metric_column tc else Ok []
          | None => Ok []
          end ;;
        comparison_insights <-
          match group_column with
          | Some gc =>
              if str_truthy gc && dict_in gc row0
              then _detect_comparisons data metric_column gc time_column
              else Ok []
          | None => Ok []
          end ;;
        dist_insights <-
          (if negb (col_given group_column) then
             dist_insight <- _detect_distribution data metric_column ;;
             Ok (match dist_insight with Some i => [i] | None => [] end)
           else Ok []) ;;
        anomaly_insights <- _detect_anomalies data metric_column group_column ;;
        Ok (trend_insights ++ comparison_insights ++ dist_insights
            ++ anomaly_insights)%list
  end.

End InsightDetector.

(** ** Narratives ([narrator.py]) *)

Record StoryFrame := {
  frame_type : string;
  headline : string;
  body_text : text;
  key_metric : option text;
  key_metric_label : text;
  visual_hint : string;
  emphasis : string
}.

Record Narrative := {
  n_title : text;
  n_subtitle : text;
  n_domain : string;
  n_sentiment : string;
  n_context : StoryFrame;
  n_change : StoryFrame;
  n_evidence : StoryFrame;
  n_consequence : StoryFrame;
  n_implication : StoryFrame;
  source_attribution : string;
  time_period : text;
  n_confidence : Q
}.

Definition get_frames (n : Narrative) : list StoryFrame :=
  [n_context n; n_change n; n_evidence n; n_consequence n; n_implication n].

Record Templates := {
  context_headline : string;
  change_headline : string;
  evidence_headline : string;
  consequence_headline : string;
  implication_headline : string
}.

Record Language := {
  tone : string;
  verbs : list string;
  adjectives : list string
}.

Definition TEMPLATES_GROWTH : Templates :=
  {| context_headline := "Where We Started";
     change_headline := "The Growth Story";
     evidence_headline := "The Numbers Speak";
     consequence_headline := "What This Means";
     implication_headline := "Looking Ahead" |}.

(** [TEMPLATES.get(insight_type, TEMPLATES[InsightType.GROWTH])] *)
Definition TEMPLATES_get (t : InsightType) : Templates :=
  match t with
  | GROWTH => TEMPLATES_GROWTH
  | DECLINE =>
      {| context_headline := "The Starting Point";
         change_headline := "The Decline";
         evidence_headline := "The Evidence";
         consequence_headline := "The Impact";
         implication_headline := "Path Forward" |}
  | COMPARISON =>
      {| context_headline := "Two Stories";
         change_headline := "The Divide";
         evidence_headline := "By The Numbers";
         consequence_headline := "Winners & Losers";
         implication_headline := "Bridging The Gap" |}
  | RANKING =>
      {| context_headline := "The Field";
         change_headline := "The Rankings";
         evidence_headline := "Performance Data";
         consequence_headline := "What Sets Them Apart";
         implication_headline := "Lessons Learned" |}
  | _ => TEMPLATES_GROWTH
  end.

(** [SENTIMENT_LANGUAGE.get(sentiment, SENTIMENT_LANGUAGE[Sentiment.NEUTRAL])] *)
Definition SENTIMENT_LANGUAGE_get (s : Sentiment) : Language :=
  match s with
  | POSITIVE =>
      {| tone := "optimistic";
         verbs := ["achieved"; "surpassed"; "improved"; "exceeded"];
         adjectives := ["remarkable"; "encouraging"; "significant"; "impressive"] |}
  | NEGATIVE =>
      {| tone := "concerned";
         verbs := ["declined"; "dropped"; "fell"; "struggled"];
         adjectives := ["concerning"; "challenging"; "troubling"; "significant"] |}
  | NEUTRAL =>
      {| tone := "objective";
         verbs := ["changed"; "shifted"; "moved"; "adjusted"];
         adjectives := ["notable"; "measurable"; "observable"; "clear"] |}
  | WARNING =>
      {| tone := "cautionary";
         verbs := ["signaled"; "indicated"; "revealed"; "showed"];
         adjectives := ["critical"; "important"; "urgent"; "key"] |}
  end.

Definition metric_clean_of (insight : DetectedInsight) : string :=
  title (replace_underscore (metric_name insight)).

Definition _generate_context (insight : DetectedInsight) (templates : Templates)
  (lang : Language) (domain : string) : result StoryFrame :=
  let headline := context_headline templates in
  let metric_clean := metric_clean_of insight in
  '(body, key_metric, metric_label) <-
    match previous_value insight with
    | PNone =>
        Ok ([Lit "Understanding "; Lit metric_clean; Lit " in "; Lit domain;
             Lit " requires looking at where things began."],
            None, [Lit ""])
    | prev =>
        p <- fmt1 prev ;;
        Ok ([Lit "In "; Lit domain; Lit ", "; Lit metric_clean; Lit " stood at ";
             p; Lit ". This baseline set the stage for what was to come."],
            Some [p], [Lit "Starting "; Lit metric_clean])
    end ;;
  Ok {| frame_type := "context";
        headline := headline;
        body_text := body;
        key_metric := key_metric;
        key_metric_label := metric_label;
        visual_hint := "baseline_indicator";
        emphasis := "starting_point" |}.

Definition _generate_change (insight : DetectedInsight) (templates : Templates)
  (lang : Language) : result StoryFrame :=
  let headline := change_headline templates in
  let metric_clean := metric_clean_of insight in
  let verb := nth 0 (verbs lang) "" in
  let adj := nth 0 (adjectives lang) "" in
  let '(body, key_metric, metric_label) :=
    match change_percentage insight with
    | Some cp =>
        let direction :=
          if direction insight =? "up" then "increased" else "decreased" in
        ([Lit metric_clean; Lit " "; Lit direction; Lit " by a "; Lit adj;
          Lit " "; Fixed1 (Qabs cp); Lit "%. This "; Lit (magnitude insight);
          Lit " shift "; Lit verb; Lit " expectations."],
         Some [Signed1 cp; Lit "%"], [Lit "Change"])
    | None =>
        ([Lit "A "; Lit adj; Lit " transformation occurred in ";
          Lit metric_clean; Lit "."],
         None, [Lit ""])
    end in
  Ok {| frame_type := "change";
        headline := headline;
        body_text := body;
        key_metric := key_metric;
        key_metric_label := metric_label;
        visual_hint := "trend_arrow";
        emphasis := "change_magnitude" |}.

Definition _generate_evidence (insight : DetectedInsight) (templates : Templates)
  (lang : Language) : result StoryFrame :=
  let headline := evidence_headline templates in
  let metric_clean := metric_clean_of insight in
  let num_points := Z.of_nat (List.length (data_points insight)) in
  p <- fmt1 (previous_value insight) ;;
  c <- fmt1 (current_value insight) ;;
  let body :=
    [Lit "Based on "; Str (PInt num_points); Lit " data points, ";
     Lit metric_clean; Lit " moved from "; p; Lit " to "; c; Lit "."] in
  let body :=
    if str_truthy (velocity insight)
    then (body ++ [Lit " The change was "; Lit (velocity insight); Lit "."])%list
    else body in
  Ok {| frame_type := "evidence";
        headline := headline;
        body_text := body;
        key_metric := Some [c];
        key_metric_label := [Lit "Current "; Lit metric_clean];
        visual_hint := "data_chart";
        emphasis := "data_points" |}.

Definition _generate_consequence (insight : DetectedInsight)
  (templates : Templates) (lang : Language) : result StoryFrame :=
  let headline := consequence_headline templates in
  let body :=
    if text_truthy (human_impact insight) then human_impact insight
    else [Lit "This change has real implications for stakeholders."] in
  let body :=
    match sentiment insight with
    | POSITIVE => (body ++ [Lit " This represents progress worth celebrating."])%list
    | NEGATIVE => (body ++ [Lit " This trend requires attention and action."])%list
    | WARNING => (body ++ [Lit " Stakeholders should take note of this development."])%list
    | NEUTRAL => body
    end in
  Ok {| frame_type := "consequence";
        headline := headline;
        body_text := body;
        key_metric := None;
        key_metric_label := [Lit ""];
        visual_hint := "impact_icon";
        emphasis := "human_element" |}.

Definition _generate_implication (insight : DetectedInsight)
  (templates : Templates) (lang : Language) : result StoryFrame :=
  let headline := implication_headline templates in
  let metric_clean := metric_clean_of insight in
  let up := direction insight =? "up" in
  let down := direction insight =? "down" in
  let body :=
    if up && Sentiment_eqb (sentiment insight) POSITIVE then
      [Lit "If current trends continue, "; Lit metric_clean;
       Lit " could reach new heights. Sustained effort will be key."]
    else if down && Sentiment_eqb (sentiment insight) NEGATIVE then
      [Lit "Reversing this trend in "; Lit metric_clean;
       Lit " will require focused intervention and resources."]
    else if up && Sentiment_eqb (sentiment insight) NEGATIVE then
      [Lit "Addressing the rise in "; Lit metric_clean;
       Lit " should be a priority for policymakers."]
    else
      [Lit "Monitoring "; Lit metric_clean;
       Lit " will be important to understand emerging patterns."] in
  Ok {| frame_type := "implication";
        headline := headline;
        body_text := body;
        key_metric := None;
        key_metric_label := [Lit ""];
        visual_hint := "forward_arrow";
        emphasis := "call_to_action" |}.

Definition _generate_title (insight : DetectedInsight) (lang : Language) : text :=
  let metric_clean := metric_clean_of insight in
  let adj := nth 1 (adjectives lang) "" in
  match insight_type insight with
  | GROWTH => [Lit metric_clean; Lit " Shows "; Lit (title adj); Lit " Growth"]
  | DECLINE => [Lit metric_clean; Lit " Faces "; Lit (title adj); Lit " Decline"]
  | RANKING => [Lit "The "; Lit metric_clean; Lit " Rankings"]
  | COMPARISON => [Lit metric_clean; Lit ": A Tale of Two Trends"]
  | _ => [Lit metric_clean; Lit ": Key Insights"]
  end.

Definition _generate_subtitle (insight : DetectedInsight) (domain : string) : text :=
  match time_range insight with
  | Some (t0, t1) =>
      [Lit "A "; Lit (title domain); Lit " story from "; Str t0; Lit " to "; Str t1]
  | None => [Lit "Insights from "; Lit (title domain); Lit " data"]
  end.

(** [NarrativeGenerator.generate] *)
Definition generate (insight : DetectedInsight) (domain source : string)
  : result Narrative :=
  let templates := TEMPLATES_get (insight_type insight) in
  let lang := SENTIMENT_LANGUAGE_get (sentiment insight) in
  context_frame <- _generate_context insight templates lang domain ;;
  change_frame <- _generate_change insight templates lang ;;
  evidence_frame <- _generate_evidence insight templates lang ;;
  consequence_frame <- _generate_consequence insight templates lang ;;
  implication_frame <- _generate_implication insight templates lang ;;
  let title := _generate_title insight lang in
  let subtitle := _generate_subtitle insight domain in
  let time_period :=
    match time_range insight with
    | Some (t0, t1) => [Str t0; Lit " - "; Str t1]
    | None => [Lit "Recent Period"]
    end in
  Ok {| n_title := title;
        n_subtitle := subtitle;
        n_domain := domain;
        n_sentiment := Sentiment_value (sentiment insight);
        n_context := context_frame;
        n_change := change_frame;
        n_evidence := evidence_frame;
        n_consequence := consequence_frame;
        n_implication := implication_frame;
        source_attribution := source;
        time_period := time_period;
        n_confidence := confidence insight |}.

(** ** Query analysis ([analyzer.py], data only) *)

Module QueryIntent.
Inductive t :=
| TREND | COMPARISON | RANKING | CURRENT_STATE
| BREAKDOWN | CORRELATION | ANOMALY | GENERAL.

Definition value (i : t) : string :=
  match i with
  | TREND => "trend" | COMPARISON => "comparison" | RANKING => "ranking"
  | CURRENT_STATE => "current" | BREAKDOWN => "breakdown"
  | CORRELATION => "correlation" | ANOMALY => "anomaly"
  | GENERAL => "general"
  end.

Definition eqb (a b : t) : bool := value a =? value b.
End QueryIntent.

Record QueryAnalysis := {
  original_query : string;
  normalized_query : string;
  intent : QueryIntent.t;
  intent_confidence : Q;
  topics : list string;
  locations : list string;
  time_references : list string;
  metrics : list string;
  domain_hint : option string;
  requires_historical : bool;
  requires_comparison : bool;
  preferred_output : string;
  search_keywords : list string
}.

(** ** The orchestrator ([reasoning.py]) *)

(** One entry of [context_data]: the dict [_retrieve_context] builds for a
    retrieval result, whose four keys are always there. *)
Record ContextItem := {
  content : string;
  relevance : Q;
  item_domain : option string;
  has_historical : bool
}.

Record RenderData := {
  rd_template : string;
  rd_domain : string;
  rd_title : text;
  rd_subtitle : text;
  rd_metrics : list (pyval * string * option Q);
  rd_chart_data : list Dict;
  rd_insights : list (string * text * Q);
  rd_narrative_frames : option (list StoryFrame)
}.

Record ReasoningResult := {
  query : string;
  query_analysis : QueryAnalysis;
  context_found : bool;
  context_summary : text;
  sources_used : list string;
  insights : list DetectedInsight;
  primary_insight : option DetectedInsight;
  output_mode : string;
  rr_recommended_template : string;
  narrative : option Narrative;
  render_data : RenderData;
  overall_confidence : Q;
  reasoning_notes : list text
}.

Module ReasoningEngine.

(** The first item with [has_historical] gives the only insight
    ([break] after the first [append]). *)
Definition _detect_insights (context_data : list ContextItem)
  (analysis : QueryAnalysis) : list DetectedInsight :=
  match find has_historical context_data with
  | Some item =>
      [ {| insight_type :=
             if contains "growth" (normalized_query analysis)
             then GROWTH else STABILITY;
           summary :=
             [Lit "Data analysis based on query: ";
              Lit (take_str 50 (original_query analysis))];
           metric_name :=
             match topics analysis with
             | t :: _ => t
             | [] => "metric"
             end;
           current_value := PInt 0;
           previous_value := PNone;
           change_absolute := None;
           change_percentage := None;
           direction := "stable";
           magnitude := "moderate";
           velocity := "gradual";
           human_impact := [Lit ""];
           sentiment := NEUTRAL;
           recommended_template := "hero_stat";
           confidence := relevance item;
           data_points := [];
           time_range := None |} ]
  | None => []
  end.

Definition intent_match (i : QueryIntent.t) : option (list InsightType) :=
  match i with
  | QueryIntent.TREND => Some [GROWTH; DECLINE]
  | QueryIntent.COMPARISON => Some [COMPARISON; RANKING]
  | QueryIntent.RANKING => Some [RANKING]
  | QueryIntent.CURRENT_STATE => Some [STABILITY]
  | _ => None
  end.

Definition score_insight (analysis : QueryAnalysis) (insight : DetectedInsight) : Q :=
  let score := confidence insight in
  match intent_match (intent analysis) with
  | Some types =>
      if existsb (InsightType_eqb (insight_type insight)) types
      then score + 0.2 else score
  | None => score
  end.

Definition _select_primary_insight (insights : list DetectedInsight)
  (analysis : QueryAnalysis) : option DetectedInsight :=
  match insights with
  | [] => None
  | _ => hd_error (sorted_desc (score_insight analysis) insights)
  end.

Definition has_historical_insight (insights : list DetectedInsight) : bool :=
  existsb (fun i =>
             existsb (InsightType_eqb (insight_type i)) [GROWTH; DECLINE]
             && match time_range i with Some _ => true | None => false end)
          insights.

Definition _decide_output_mode (analysis : QueryAnalysis)
  (insights : list DetectedInsight) (force_mode : option string) : string :=
  let trend_intent := QueryIntent.eqb (intent analysis) QueryIntent.TREND in
  let decided :=
    if requires_historical analysis
       && (has_historical_insight insights || trend_intent)
    then "story" else "data" in
  match force_mode with
  | Some m => if str_truthy m then m else decided
  | None => decided
  end.

Definition _select_template (primary_insight : option DetectedInsight)
  (analysis : QueryAnalysis) (output_mode : string) : string :=
  if output_mode =? "story" then "story_five_frame"
  else
    match primary_insight with
    | Some p => recommended_template p
    | None =>
        match intent analysis with
        | QueryIntent.TREND => "trend_line"
        | QueryIntent.COMPARISON => "versus"
        | QueryIntent.RANKING => "ranking_bar"
        | QueryIntent.CURRENT_STATE => "hero_stat"
        | QueryIntent.BREAKDOWN => "pie_breakdown"
        | _ => "hero_stat"
        end
    end.

Definition or_str (a : option string) (b : string) : string :=
  match a with
  | Some s => if str_truthy s then s else b
  | None => b
  end.

Definition _prepare_render_data (analysis : QueryAnalysis)
  (insights : list DetectedInsight) (primary_insight : option DetectedInsight)
  (narrative : option Narrative) (template : string) : RenderData :=
  let listed :=
    map (fun i => (InsightType_value (insight_type i), summary i, confidence i))
        insights in
  let domain := or_str (domain_hint analysis) "general" in
  match narrative, primary_insight with
  | Some n, _ =>
      {| rd_template := template; rd_domain := domain;
         rd_title := n_title n; rd_subtitle := n_subtitle n;
         rd_metrics := []; rd_chart_data := []; rd_insights := listed;
         rd_narrative_frames := Some (get_frames n) |}
  | None, Some p =>
      {| rd_template := template; rd_domain := domain;
         rd_title := summary p; rd_subtitle := [Lit ""];
         rd_metrics := [(current_value p, metric_name p, change_percentage p)];
         rd_chart_data := []; rd_insights := listed;
         rd_narrative_frames := None |}
  | None, None =>
      {| rd_template := template; rd_domain := domain;
         rd_title := [Lit ""]; rd_subtitle := [Lit ""];
         rd_metrics := []; rd_chart_data := []; rd_insights := listed;
         rd_narrative_frames := None |}
  end.

Definition _calculate_confidence (context_found : bool)
  (insights : list DetectedInsight) (primary_insight : option DetectedInsight) : Q :=
  let score := 0 in
  let score := if context_found then score + 0.3 else score in
  let score :=
    match insights with
    | [] => score
    | _ =>
        let avg_insight_confidence :=
          Qsum (map confidence insights) / len insights in
        score + avg_insight_confidence * 0.4
    end in
  let score :=
    match primary_insight with
    | Some p => score + confidence p * 0.3
    | None => score
    end in
  Qmin score 1.

Section Reason.

(** [QueryAnalyzer.analyze], and the awaited [_retrieve_context], which
    reads the external knowledge store and answers [([], [])] when there
    is no store or the retrieval fails. *)
Variable analyze : string -> QueryAnalysis.
Variable _retrieve_context :
  QueryAnalysis -> option string -> list ContextItem * list string.

Definition reason (query : string) (force_mode domain_override : option string)
  : result ReasoningResult :=
  let analysis := analyze query in
  let notes1 :=
    [[Lit "Intent detected: "; Lit (QueryIntent.value (intent analysis))];
     [Lit "Domain hint: ";
      Str (match domain_hint analysis with Some d => PStr d | None => PNone end)];
     [Lit "Requires historical: "; Str (PBool (requires_historical analysis))]] in
  let '(context_data, sources) := _retrieve_context analysis domain_override in
  let context_found := (0 <? List.length context_data)%nat in
  let context_summary :=
    [Lit "Found "; Str (PInt (Z.of_nat (List.length context_data)));
     Lit " relevant data points from ";
     Str (PInt (Z.of_nat (List.length sources))); Lit " sources"] in
  let insights := _detect_insights context_data analysis in
  let notes3 :=
    [[Lit "Detected "; Str (PInt (Z.of_nat (List.length insights)));
      Lit " insights"]] in
  let primary_insight := _select_primary_insight insights analysis in
  let notes4 :=
    match primary_insight with
    | Some p =>
        [[Lit "Primary insight: "; Lit (InsightType_value (insight_type p))]]
    | None => []
    end in
  let output_mode := _decide_output_mode analysis insights force_mode in
  let template := _select_template primary_insight analysis output_mode in
  narrative <-
    (if output_mode =? "story" then
       match primary_insight with
       | Some p =>
           let domain :=
             or_str domain_override (or_str (domain_hint analysis) "general") in
           let source := hd "Data Analysis" sources in
           n <- generate p domain source ;; Ok (Some n)
       | None => Ok None
       end
     else Ok None) ;;
  let render_data :=
    _prepare_render_data analysis insights primary_insight narrative template in
  let confidence :=
    _calculate_confidence context_found insights primary_insight in
  Ok {| query := query;
        query_analysis := analysis;
        context_found := context_found;
        context_summary := context_summary;
        sources_used := sources;
        insights := insights;
        primary_insight := primary_insight;
        output_mode := output_mode;
        rr_recommended_template := template;
        narrative := narrative;
        render_data := render_data;
        overall_confidence := confidence;
        reasoning_notes :=
          (notes1 ++ [context_summary] ++ notes3 ++ notes4
           ++ [[Lit "Output mode: "; Lit output_mode];
               [Lit "Template: "; Lit template]])%list |}.

End Reason.

End ReasoningEngine.

(** ** The query analyzer ([analyzer.py])

    The parts that match regular expressions ([_normalize],
    [_detect_intent], [_extract_time_references]) are variables of
    [analyze]; the keyword scans are embedded as they are. *)

Module QueryAnalyzer.

Definition DOMAIN_KEYWORDS : list (string * list string) :=
  [("education", ["school"; "literacy"; "student"; "teacher"; "enrollment";
                  "education"; "college"; "university"; "exam"; "dropout"]);
   ("agriculture", ["crop"; "farm"; "farmer"; "yield"; "irrigation"; "harvest";
                    "agriculture"; "msp"; "rainfall"; "soil"]);
   ("economy", ["gdp"; "income"; "tax"; "budget"; "revenue"; "growth";
                "inflation"; "employment"; "economy"; "investment"]);
   ("health", ["hospital"; "doctor"; "patient"; "disease"; "mortality"; "birth";
               "vaccination"; "health"; "medical"; "death"]);
   ("infrastructure", ["road"; "bridge"; "electricity"; "water"; "sanitation";
                       "housing"; "construction"; "infrastructure"; "transport"]);
   ("environment", ["forest"; "pollution"; "air"; "climate"; "temperature";
                    "wildlife"; "environment"; "conservation"; "carbon"]);
   ("demographics", ["population"; "census"; "age"; "gender"; "urban"; "rural";
                     "migration"; "density"; "demographic"]);
   ("law", ["court"; "case"; "crime"; "police"; "judgment"; "legislation";
            "policy"; "legal"; "law"; "justice"])].

Definition LOCATIONS : list string :=
  ["telangana"; "andhra pradesh"; "karnataka"; "tamil nadu"; "kerala";
   "maharashtra"; "gujarat"; "rajasthan"; "uttar pradesh"; "bihar";
   "hyderabad"; "bangalore"; "chennai"; "mumbai"; "delhi";
   "warangal"; "karimnagar"; "nizamabad"; "khammam"; "adilabad";
   "india"; "national"; "state"; "district"].

Definition metric_keywords : list string :=
  ["rate"; "percentage"; "percent"; "ratio"; "count"; "number";
   "total"; "average"; "mean"; "median"; "growth"; "decline"].

(** [s in l] on a list of strings. *)
Definition in_list (s : string) (l : list string) : bool :=
  existsb (String.eqb s) l.

(** One turn of the inner loop of [_extract_topics]. *)
Definition add_topic (query : string) (topics : list string) (kw : string)
  : list string :=
  if contains kw query && negb (in_list kw topics)
  then (topics ++ [kw])%list else topics.

Definition _extract_topics (query : string) : list string :=
  firstn 5 (fold_left (add_topic query) (flat_map snd DOMAIN_KEYWORDS) []).

Definition _extract_locations (query : string) : list string :=
  map title (filter (fun loc => contains loc query) LOCATIONS).

Definition _extract_metrics (query : string) : list string :=
  filter (fun m => contains m query) metric_keywords.

(** [sum(1 for kw in keywords if kw in query or kw in topics)] *)
Definition domain_score (query : string) (topics keywords : list string) : nat :=
  List.length (filter (fun kw => contains kw query || in_list kw topics) keywords).

(** The dict [domain_scores], in the order of [DOMAIN_KEYWORDS]. *)
Definition domain_scores (query : string) (topics : list string)
  : list (string * nat) :=
  filter (fun ds => (0 <? snd ds)%nat)
         (map (fun d => (fst d, domain_score query topics (snd d))) DOMAIN_KEYWORDS).

(** [max(scores, key=scores.get)]: the first entry of the largest score. *)
Fixpoint max_first (best : string * nat) (l : list (string * nat)) : string * nat :=
  match l with
  | [] => best
  | x :: l' => max_first (if (snd best <? snd x)%nat then x else best) l'
  end.

Definition _infer_domain (query : string) (topics : list string) : option string :=
  match domain_scores query topics with
  | [] => None
  | d :: l => Some (fst (max_first d l))
  end.

Definition _build_search_keywords (topics locations metrics : list string)
  : list string :=
  firstn 10
    (topics ++ map lower locations
     ++ filter (fun m => negb (in_list m ["rate"; "percentage"; "number"])) metrics)%list.

Section Analyze.

Variable _normalize : string -> string.
Variable _detect_intent : string -> QueryIntent.t * Q.
Variable _extract_time_references : string -> list string.

Definition analyze (query : string) : QueryAnalysis :=
  let normalized := _normalize query in
  let '(intent, confidence) := _detect_intent normalized in
  let topics := _extract_topics normalized in
  let locations := _extract_locations normalized in
  let time_refs := _extract_time_references query in
  let metrics := _extract_metrics normalized in
  let domain := _infer_domain normalized topics in
  let requires_historical :=
    QueryIntent.eqb intent QueryIntent.TREND
    || (2 <=? List.length time_refs)%nat
    || existsb (fun word => contains word normalized)
         ["change"; "trend"; "over time"; "growth"; "decline"] in
  let requires_comparison :=
    QueryIntent.eqb intent QueryIntent.COMPARISON
    || QueryIntent.eqb intent QueryIntent.RANKING
    || contains "vs" normalized || contains "versus" normalized
    || contains "compare" normalized in
  let preferred_output := if requires_historical then "story" else "data" in
  let search_keywords := _build_search_keywords topics locations metrics in
  {| original_query := query;
     normalized_query := normalized;
     intent := intent;
     intent_confidence := confidence;
     topics := topics;
     locations := locations;
     time_references := time_refs;
     metrics := metrics;
     domain_hint := domain;
     requires_historical := requires_historical;
     requires_comparison := requires_comparison;
     preferred_output := preferred_output;
     search_keywords := search_keywords |}.

End Analyze.

End QueryAnalyzer.

(** [Sentiment] seen from the other direction. *)
Definition opposite_sentiment (s : Sentiment) : Sentiment :=
  match s with
  | POSITIVE => NEGATIVE
  | NEGATIVE => POSITIVE
  | other => other
  end.

(** The key [sorted] uses in [_detect_trends]. *)
Definition time_key (time_col : string) (row : Dict) : pyval :=
  dict_get row time_col (PInt 0).

(** ** The specification's wording, and the inputs of the scenarios *)

(** Mean of the insights' confidence values, 0 when there is none. *)
Definition mean_confidence (insights : list DetectedInsight) : Q :=
  match insights with
  | [] => 0
  | _ => Qsum (map confidence insights) / len insights
  end.

(** 0.3 if any context was retrieved, plus 0.4 times the mean confidence,
    plus 0.3 times the primary insight's confidence. *)
Definition weighted_confidence (context_found : bool)
  (insights : list DetectedInsight) (primary_insight : option DetectedInsight) : Q :=
  (if context_found then 0.3 else 0)
  + 0.4 * mean_confidence insights
  + 0.3 * match primary_insight with Some p => confidence p | None => 0 end.

Definition unit_confidence (i : DetectedInsight) : Prop :=
  0 <= confidence i /\ confidence i <= 1.


(** [DetectedInsight(insight_type=GROWTH, summary="s", metric_name="m",
    current_value=0)]: every optional field left out. *)
Definition bare_insight : DetectedInsight :=
  {| insight_type := GROWTH;
     summary := [Lit "s"];
     metric_name := "m";
     current_value := PInt 0;
     previous_value := PNone;
     change_absolute := None;
     change_percentage := None;
     direction := "stable";
     magnitude := "moderate";
     velocity := "gradual";
     human_impact := [Lit ""];
     sentiment := NEUTRAL;
     recommended_template := "hero_stat";
     confidence := 0.8;
     data_points := [];
     time_range := None |}.

(** The insight of [tests/test_intelligence.py], [test_narrative_generator]. *)
Definition literacy_insight : DetectedInsight :=
  {| insight_type := GROWTH;
     summary := [Lit "Literacy Rate increased by 7.6% from 2015 to 2023"];
     metric_name := "Literacy_Rate";
     current_value := PFloat 89.5;
     previous_value := PFloat 83.2;
     change_absolute := Some 6.3;
     change_percentage := Some 7.6;
     direction := "up";
     magnitude := "moderate";
     velocity := "steady";
     human_impact := [Lit "Literacy has noticeably improved by 7.6%"];
     sentiment := POSITIVE;
     recommended_template := "trend_line";
     confidence := 0.85;
     data_points := [];
     time_range := Some (PInt 2015, PInt 2023) |}.

(** What [analyze] answers for "How has literacy changed in Telangana?":
    the first trend pattern matches "changed" and no other pattern does. *)
Definition literacy_changed : QueryAnalysis :=
  {| original_query := "How has literacy changed in Telangana?";
     normalized_query := "how has literacy changed in telangana";
     intent := QueryIntent.TREND;
     intent_confidence := 0.5;
     topics := ["literacy"];
     locations := ["Telangana"];
     time_references := [];
     metrics := [];
     domain_hint := Some "education";
     requires_historical := true;
     requires_comparison := false;
     preferred_output := "story";
     search_keywords := ["literacy"; "telangana"] |}.

(** What [analyze] answers for "Which district has the highest literacy
    rate?": both ranking patterns match. *)
Definition highest_literacy : QueryAnalysis :=
  {| original_query := "Which district has the highest literacy rate?";
     normalized_query := "which district has the highest literacy rate";
     intent := QueryIntent.RANKING;
     intent_confidence := 1;
     topics := ["literacy"];
     locations := ["District"];
     time_references := [];
     metrics := ["rate"];
     domain_hint := Some "education";
     requires_historical := false;
     requires_comparison := true;
     preferred_output := "data";
     search_keywords := ["literacy"; "district"] |}.

(** [_retrieve_context] of an engine without a knowledge store. *)
Definition no_store (_ : QueryAnalysis) (_ : option string)
  : list ContextItem * list string := ([], []).

(** Rows of the scenarios. *)
Definition literacy_rows : list Dict :=
  [[("year", PInt 2015); ("literacy", PFloat 66.5)];
   [("year", PInt 2019); ("literacy", PFloat 78.0)];
   [("year", PInt 2023); ("literacy", PFloat 89.5)]].

(** The metric column is missing from the first row only. *)
Definition late_column_rows : list Dict :=
  [[("year", PInt 2015)];
   [("year", PInt 2019); ("literacy", PFloat 78.0)];
   [("year", PInt 2023); ("literacy", PFloat 89.5)]].

(** One value of 100 among eight of 10: mean 20, deviation 30. *)
Definition outlier_rows : list Dict :=
  [("m", PFloat 100)] :: repeat [("m", PFloat 10)] 8.

(** One value of -8 among eight of 1: mean 0, deviation 3. *)
Definition zero_mean_rows : list Dict :=
  [("m", PFloat (-8))] :: repeat [("m", PFloat 1)] 8.

(** The metric of the middle row is [None]. *)
Definition gap_rows : list Dict :=
  [[("year", PInt 2015); ("m", PFloat 1)];
   [("year", PInt 2019); ("m", PNone)];
   [("year", PInt 2023); ("m", PFloat 2)]].


(** Two retrieval results as [_retrieve_context] lists them, the second
    with historical depth, and their sources. *)
Definition literacy_context : list ContextItem :=
  [ {| content := "Literacy rate by district, 2023";
       relevance := 0.62;
       item_domain := Some "education";
       has_historical := false |};
    {| content := "Literacy rate in Telangana, 2015 to 2023";
       relevance := 0.8;
       item_domain := Some "education";
       has_historical := true |} ].

Definition literacy_store (_ : QueryAnalysis) (_ : option string)
  : list ContextItem * list string :=
  (literacy_context, ["Telangana Education Statistics"]).

(** The fields of an insight that take their values in fixed sets. *)
Definition direction_values : list string := ["up"; "down"; "stable"; "comparison"].
Definition magnitude_values : list string := ["small"; "moderate"; "large"; "dramatic"].
Definition velocity_values : list string :=
  ["gradual"; "steady"; "accelerating"; "decelerating"].


(** The detection paths of [detect_from_data], past the guard on the
    metric column. *)
Definition detection_paths (str_to_float : string -> option Q)
  (data : list Dict) (metric_column : string)
  (time_column group_column : option string) : result (list DetectedInsight) :=
  let row0 := hd [] data in
  trend_insights <-
    match time_column with
    | Some tc =>
        if str_truthy tc && dict_in tc row0
        then _detect_trends str_to_float data metric_column tc else Ok []
    | None => Ok []
    end ;;
  comparison_insights <-
    match group_column with
    | Some gc =>
        if str_truthy gc && dict_in gc row0
        then _detect_comparisons str_to_float data metric_column gc time_column
        else Ok []
    | None => Ok []
    end ;;
  dist_insights <-
    (if negb (col_given group_column) then
       dist_insight <- _detect_distribution str_to_float data metric_column ;;
       Ok (match dist_insight with Some i => [i] | None => [] end)
     else Ok []) ;;
  anomaly_insights <- _detect_anomalies str_to_float data metric_column group_column ;;
  Ok (trend_insights ++ comparison_insights ++ dist_insights
      ++ anomaly_insights)%list.

(** The fields of an insight with fixed values: the magnitude, the
    velocity, and the direction, which is "high" or "low" on anomaly
    insights only. *)
Definition enumerated_fields (i : DetectedInsight) : Prop :=
  In (magnitude i) magnitude_values
  /\ In (velocity i) velocity_values
  /\ (In (direction i) direction_values
      \/ (insight_type i = ANOMALY /\ In (direction i) ["high"; "low"])).

(** Keys of [sorted] that are numbers, and their order. *)
Definition key_number {A} (key : A -> pyval) (x : A) : Q :=
  match as_number (key x) with
  | Some q => q
  | None => 0
  end.

Definition key_le {A} (key : A -> pyval) (a b : A) : Prop :=
  key_number key a <= key_number key b.

Definition numeric_key {A} (key : A -> pyval) (x : A) : Prop :=
  as_number (key x) <> None.

(** * Properties *)

(** Inversion of a [bind] that returned. *)
Ltac bind_ok H :=
  match type of H with
  | bind ?r _ = Ok _ =>
      let E := fresh "E" in
      destruct r eqn:E; simpl bind in H; [| discriminate H]
  end.

Lemma Qltb_true (x y : Q) : Qltb x y = true <-> x < y.
Proof.
  unfold Qltb. destruct (Qlt_le_dec x y) as [H | H]; split; intro K;
    try reflexivity; try assumption; try discriminate.
  exfalso. apply (Qlt_not_le _ _ K H).
Qed.

Lemma Qltb_false (x y : Q) : Qltb x y = false <-> y <= x.
Proof.
  unfold Qltb. destruct (Qlt_le_dec x y) as [H | H]; split; intro K;
    try reflexivity; try assumption; try discriminate.
  exfalso. apply (Qlt_not_le _ _ H K).
Qed.




(** *** The narrative builder *)

Lemma fmt1_ok_number (v : pyval) :
  (exists f, fmt1 v = Ok f) <-> as_number v <> None.
Proof.
  destruct v; simpl; split; intro H; try discriminate;
    try (destruct H as [f H]; discriminate H);
    try (eexists; reflexivity); try (exfalso; apply H; reflexivity).
Qed.


(** The five frames come in the fixed order. *)
Lemma generate_frame_order (insight : DetectedInsight) (domain source : string)
  (n : Narrative) :
  generate insight domain source = Ok n ->
  map frame_type (get_frames n)
  = ["context"; "change"; "evidence"; "consequence"; "implication"].
Proof.
  unfold generate, _generate_context, _generate_change, _generate_evidence.
  destruct (change_percentage insight);
    destruct (previous_value insight);
    destruct (current_value insight); simpl; intro H;
    try discriminate H; injection H as <-; reflexivity.
Qed.

Lemma generate_literacy_insight_ok :
  exists n, generate literacy_insight "education" "Telangana Education Statistics" = Ok n.
Proof. eexists. reflexivity. Qed.

(** C1: [generate] is not total.  On an insight whose optional fields are
    all absent, the insight [DetectedInsight(GROWTH, "s", "m",
    current_value=0)], the evidence frame formats [previous_value], which is
    [None], with [.1f], and the call raises [TypeError]; the context frame
    tests [previous_value is not None] before the same formatting. *)
Theorem generate_raises_without_previous_value :
  generate bare_insight "general" "Data Analysis" = Raise TypeError.
Proof. reflexivity. Qed.

(** Any insight without [previous_value] makes [generate] raise. *)
Lemma generate_raises_on_none (insight : DetectedInsight) (domain source : string) :
  previous_value insight = PNone ->
  generate insight domain source = Raise TypeError.
Proof.
  intro Hp. unfold generate, _generate_context, _generate_change, _generate_evidence.
  rewrite Hp. destruct (change_percentage insight); reflexivity.
Qed.

(** *** The mode decider *)







(** *** The overall confidence *)

Lemma fold_Qplus_nonneg (l : list Q) :
  (forall x, In x l -> 0 <= x) ->
  forall acc, 0 <= acc -> 0 <= fold_left Qplus l acc.
Proof.
  induction l as [| x l IH]; intros Hl acc Hacc; simpl.
  - exact Hacc.
  - apply IH.
    + intros y Hy. apply Hl. right. exact Hy.
    + assert (0 <= x) by (apply Hl; left; reflexivity). lra.
Qed.

Lemma len_pos {A} (x : A) (l : list A) : 0 < len (x :: l).
Proof.
  unfold len. change 0 with (inject_Z 0). rewrite <- Zlt_Qlt.
  simpl List.length. lia.
Qed.

Lemma mean_confidence_nonneg (insights : list DetectedInsight) :
  (forall i, In i insights -> unit_confidence i) ->
  0 <= mean_confidence insights.
Proof.
  intro H. destruct insights as [| i l]; [apply Qle_refl |].
  unfold mean_confidence. apply Qle_shift_div_l; [apply len_pos |].
  rewrite Qmult_0_l. unfold Qsum. apply fold_Qplus_nonneg; [| apply Qle_refl].
  intros x Hx. apply in_map_iff in Hx. destruct Hx as [j [<- Hj]].
  apply (H j Hj).
Qed.

(** The accumulated score is the weighted combination. *)
Lemma score_is_weighted (context_found : bool) (insights : list DetectedInsight)
  (primary_insight : option DetectedInsight) :
  exists score,
    ReasoningEngine._calculate_confidence context_found insights primary_insight
    = Qmin score 1
    /\ score == weighted_confidence context_found insights primary_insight.
Proof.
  unfold ReasoningEngine._calculate_confidence, weighted_confidence.
  eexists. split; [reflexivity |].
  destruct context_found, insights, primary_insight; unfold mean_confidence; ring.
Qed.

(** C3: the overall confidence is the weighted combination 0.3 (if any
    context was found) + 0.4 * mean of the insights' confidences + 0.3 *
    the primary insight's confidence, capped at 1; it never exceeds that
    combination nor 1, and it is not below 0 when the confidences of the
    insights lie in [0,1]. *)
Theorem calculate_confidence_weighted (context_found : bool)
  (insights : list DetectedInsight) (primary_insight : option DetectedInsight) :
  let c := ReasoningEngine._calculate_confidence context_found insights primary_insight in
  let w := weighted_confidence context_found insights primary_insight in
  c == Qmin w 1
  /\ c <= w
  /\ c <= 1
  /\ ((forall i, In i insights -> unit_confidence i) ->
      (forall p, primary_insight = Some p -> unit_confidence p) ->
      0 <= c).
Proof.
  intros c w.
  destruct (score_is_weighted context_found insights primary_insight)
    as [score [Hc Hs]].
  fold c in Hc. fold w in Hs. rewrite Hc.
  destruct (Q.min_spec score 1) as [[H1 H2] | [H1 H2]];
    destruct (Q.min_spec w 1) as [[H3 H4] | [H3 H4]];
    rewrite H2; repeat split; try rewrite H4; try lra.
  - intros Hi Hp.
    assert (Hm := mean_confidence_nonneg insights Hi).
    assert (0 <= w); [| lra].
    unfold w, weighted_confidence.
    assert (0 <= if context_found then 0.3 else 0)
      by (destruct context_found; lra).
    assert (0 <= match primary_insight with Some p => confidence p | None => 0 end).
    { destruct primary_insight as [p |]; [apply (Hp p eq_refl) | lra]. }
    nra.
Qed.

Lemma calculate_confidence_weighted_witness :
  0 <= ReasoningEngine._calculate_confidence true [literacy_insight] (Some literacy_insight)
  /\ ReasoningEngine._calculate_confidence true [literacy_insight] (Some literacy_insight)
     == 0.895.
Proof.
  split.
  - apply (proj2 (proj2 (proj2
      (calculate_confidence_weighted true [literacy_insight] (Some literacy_insight))))).
    + intros i [<- | []]. split; vm_compute; discriminate.
    + intros p Hp. injection Hp as <-. split; vm_compute; discriminate.
  - reflexivity.
Defined.

(** *** Sorting keeps the rows *)

Lemma insert_by_perm {A} (lt : A -> A -> result bool) (x : A) (l r : list A) :
  insert_by lt x l = Ok r -> Permutation (x :: l) r.
Proof.
  revert r. induction l as [| y l IH]; intros r H; simpl in H.
  - injection H as <-. apply Permutation_refl.
  - destruct (lt y x) as [[|] | e]; simpl in H; try discriminate H.
    + destruct (insert_by lt x l) as [r' | e]; simpl in H; try discriminate H.
      injection H as <-.
      apply perm_trans with (y :: x :: l); [apply perm_swap |].
      apply perm_skip. apply IH. reflexivity.
    + injection H as <-. apply Permutation_refl.
Qed.



Lemma insert_float_perm {A} (before : Q -> Q -> bool) (key : A -> Q) (x : A)
  (l : list A) : Permutation (x :: l) (insert_float before key x l).
Proof.
  induction l as [| y l IH]; simpl.
  - apply Permutation_refl.
  - destruct (before (key y) (key x)).
    + apply perm_trans with (y :: x :: l); [apply perm_swap |].
      apply perm_skip. exact IH.
    + apply Permutation_refl.
Qed.

Lemma sort_float_perm {A} (before : Q -> Q -> bool) (key : A -> Q) (l : list A) :
  Permutation l (sort_float before key l).
Proof.
  induction l as [| x l IH]; simpl.
  - apply perm_nil.
  - apply perm_trans with (x :: sort_float before key l).
    + apply perm_skip. exact IH.
    + apply insert_float_perm.
Qed.

Lemma in_last {A} (l : list A) (d : A) : l <> [] -> In (last l d) l.
Proof.
  induction l as [| x l IH]; intro H; [contradiction H; reflexivity |].
  destruct l as [| y l]; [left; reflexivity |].
  right. apply IH. discriminate.
Qed.

(** *** [sorted] on numeric keys *)

Lemma py_lt_numeric {A} (key : A -> pyval) (a b : A) :
  numeric_key key a -> numeric_key key b ->
  py_lt (key a) (key b) = Ok (Qltb (key_number key a) (key_number key b)).
Proof.
  unfold numeric_key, key_number, py_lt, Qltb.
  destruct (as_number (key a)); [| intro H; contradiction H; reflexivity].
  destruct (as_number (key b)); [| intros _ H; contradiction H; reflexivity].
  reflexivity.
Qed.

Lemma insert_by_numeric {A} (key : A -> pyval) (x : A) (l : list A) :
  numeric_key key x -> Forall (numeric_key key) l ->
  StronglySorted (key_le key) l ->
  exists r, insert_by (fun a b => py_lt (key a) (key b)) x l = Ok r
            /\ StronglySorted (key_le key) r.
Proof.
  intros Hx Hl Hs. induction l as [| y l IH]; simpl.
  - exists [x]. split; [reflexivity |]. constructor; constructor.
  - inversion Hl as [| ? ? Hy Hl']; subst.
    inversion Hs as [| ? ? Hs' Hall]; subst.
    rewrite (py_lt_numeric key y x Hy Hx). simpl bind.
    destruct (Qltb (key_number key y) (key_number key x)) eqn:Hlt.
    + destruct (IH Hl' Hs') as [r [Hr Hsr]]. rewrite Hr. simpl bind.
      exists (y :: r). split; [reflexivity |].
      constructor; [exact Hsr |].
      apply (Permutation_Forall (insert_by_perm _ _ _ _ Hr)).
      constructor; [| exact Hall].
      apply Qltb_true in Hlt. unfold key_le. apply Qlt_le_weak. exact Hlt.
    + exists (x :: y :: l). split; [reflexivity |].
      apply Qltb_false in Hlt.
      constructor; [exact Hs |].
      constructor; [exact Hlt |].
      apply Forall_forall. intros z Hz.
      apply (proj1 (Forall_forall _ _) Hall) in Hz.
      unfold key_le in *. apply Qle_trans with (key_number key y); assumption.
Qed.

(** When every key is a number, [sorted] returns the rows in ascending
    order of the keys, and the same rows. *)
Lemma py_sorted_numeric {A} (key : A -> pyval) (l : list A) :
  Forall (numeric_key key) l ->
  exists r, py_sorted key l = Ok r
            /\ Permutation l r
            /\ StronglySorted (key_le key) r.
Proof.
  unfold py_sorted. induction l as [| x l IH]; intro Hl; simpl.
  - exists []. repeat split; constructor.
  - inversion Hl as [| ? ? Hx Hl']; subst.
    destruct (IH Hl') as [s [Hs [Hp Hss]]]. rewrite Hs. simpl bind.
    destruct (insert_by_numeric key x s Hx
                (Permutation_Forall Hp Hl') Hss) as [r [Hr Hsr]].
    exists r. split; [exact Hr |]. split; [| exact Hsr].
    apply perm_trans with (x :: s); [apply perm_skip; exact Hp |].
    apply (insert_by_perm _ _ _ _ Hr).
Qed.

(** *** Trend detection *)

Section Trends.

Variable str_to_float : string -> option Q.




Lemma trend_direction_type (change_pct : Q) :
  (fst (trend_direction change_pct) = GROWTH <-> 2 < change_pct)
  /\ (fst (trend_direction change_pct) = DECLINE <-> change_pct < -2).
Proof.
  unfold trend_direction.
  destruct (Qltb 2 change_pct) eqn:Hup.
  - apply Qltb_true in Hup. repeat split; intro H;
      try assumption; try discriminate H; lra.
  - apply Qltb_false in Hup.
    destruct (Qltb change_pct (-2)) eqn:Hdown.
    + apply Qltb_true in Hdown. repeat split; intro H;
        try assumption; try discriminate H; lra.
    + apply Qltb_false in Hdown. repeat split; intro H;
        try discriminate H; lra.
Qed.




End Trends.



(** *** The miner as a whole *)

(** C4, as stated, fails: the metric column is in two of the three rows and
    the distribution path finds an insight, yet the result is empty,
    because the first row is the one without the column. *)
Lemma column_in_later_row_not_detected :
  ~ (forall str_to_float data metric_column time_column group_column,
       (exists row, In row data /\ dict_in metric_column row = true) ->
       detect_from_data str_to_float data metric_column time_column group_column = Ok [] ->
       detection_paths str_to_float data metric_column time_column group_column = Ok []).
Proof.
  intro H.
  specialize (H (fun _ => None) late_column_rows "literacy" (Some "year") None).
  assert (Hex : exists row, In row late_column_rows /\ dict_in "literacy" row = true).
  { exists [("year", PInt 2019); ("literacy", PFloat 78.0)].
    split; [right; left; reflexivity | reflexivity]. }
  specialize (H Hex eq_refl). vm_compute in H. discriminate H.
Qed.

(** The same rows with the first two exchanged give an insight. *)
Lemma column_in_first_row_detected (str_to_float : string -> option Q) :
  exists i l,
    detect_from_data str_to_float
      [[("year", PInt 2019); ("literacy", PFloat 78.0)];
       [("year", PInt 2015)];
       [("year", PInt 2023); ("literacy", PFloat 89.5)]]
      "literacy" (Some "year") None = Ok (i :: l).
Proof. eexists. eexists. vm_compute. reflexivity. Qed.

(** C4, amended: the guard looks at the first row.  [detect] returns the
    empty list when there is no row or the first row lacks the metric
    column (so also when no row has it); when the first row has the metric
    column the detection paths run, and the result is what they find. *)
Theorem detect_guard_first_row (str_to_float : string -> option Q)
  (data : list Dict) (metric_column : string)
  (time_column group_column : option string) :
  (dict_in metric_column (hd [] data) = false ->
   detect_from_data str_to_float data metric_column time_column group_column = Ok [])
  /\ ((forall row, In row data -> dict_in metric_column row = false) ->
      detect_from_data str_to_float data metric_column time_column group_column = Ok [])
  /\ (dict_in metric_column (hd [] data) = true ->
      detect_from_data str_to_float data metric_column time_column group_column
      = detection_paths str_to_float data metric_column time_column group_column).
Proof.
  unfold detect_from_data, detection_paths.
  destruct data as [| row0 rest]; simpl hd.
  - repeat split; try reflexivity. intro H. discriminate H.
  - split; [| split].
    + intro H. rewrite H. reflexivity.
    + intro H. rewrite (H row0 (or_introl eq_refl)). reflexivity.
    + intro H. rewrite H. reflexivity.
Qed.

Lemma detect_guard_first_row_witness :
  detect_from_data (fun _ => None) late_column_rows "literacy" (Some "year") None = Ok []
  /\ detect_from_data (fun _ => None) literacy_rows "literacy" (Some "year") None
     = detection_paths (fun _ => None) literacy_rows "literacy" (Some "year") None.
Proof.
  split.
  - apply (proj1 (detect_guard_first_row (fun _ => None) late_column_rows
                    "literacy" (Some "year") None)).
    reflexivity.
  - apply (proj2 (proj2 (detect_guard_first_row (fun _ => None) literacy_rows
                           "literacy" (Some "year") None))).
    reflexivity.
Defined.

(** C6, as stated, fails: the scenario does not give exactly one insight. *)
Lemma literacy_scenario_not_one_insight :
  ~ (forall str_to_float, exists i,
       detect_from_data str_to_float literacy_rows "literacy" (Some "year") None
       = Ok [i]).
Proof.
  intro H. destruct (H (fun _ => None)) as [i Hi].
  vm_compute in Hi. discriminate Hi.
Qed.

(** C6, amended: on the three literacy rows, with the time column "year"
    and no group column, [detect] returns two insights: first the trend
    insight, of type growth, direction "up", change_percentage 34.59 and
    magnitude "dramatic", then a distribution insight (there is no group
    column, and there are three values). *)
Theorem literacy_scenario_two_insights (str_to_float : string -> option Q) :
  exists g d,
    detect_from_data str_to_float literacy_rows "literacy" (Some "year") None
    = Ok [g; d]
    /\ insight_type g = GROWTH
    /\ direction g = "up"
    /\ change_percentage g = Some 34.59
    /\ magnitude g = "dramatic"
    /\ insight_type d = DISTRIBUTION.
Proof.
  eexists. eexists. split; [vm_compute; reflexivity |].
  repeat split.
Qed.

(** C7: an insight of the miner with a direction outside {up, down, stable,
    comparison}.  On one value of 100 among eight of 10 (mean 20, standard
    deviation 30, so a z-score of 8/3 for the first row) [detect] returns a
    distribution insight and an anomaly insight whose direction is "high". *)
Theorem anomaly_direction_high (str_to_float : string -> option Q) :
  exists d a,
    detect_from_data str_to_float outlier_rows "m" None None = Ok [d; a]
    /\ insight_type a = ANOMALY
    /\ direction a = "high"
    /\ ~ In (direction a) direction_values
    /\ In (magnitude a) magnitude_values
    /\ In (velocity a) velocity_values.
Proof.
  eexists. eexists. split; [vm_compute; reflexivity |].
  simpl. repeat split; try tauto.
  intros [H | [H | [H | [H | []]]]]; discriminate H.
Qed.

(** C8: [detect] raises on numeric data whose mean is zero.  On one value
    of -8 among eight of 1 (mean 0, standard deviation 3) the first row is
    an outlier and its change percentage divides by the mean. *)
Theorem detect_raises_on_zero_mean (str_to_float : string -> option Q) :
  detect_from_data str_to_float zero_mean_rows "m" None None
  = Raise ZeroDivisionError.
Proof. vm_compute. reflexivity. Qed.

(** The other paths alone return on these rows: only the anomaly path
    raises. *)
Lemma zero_mean_other_paths (str_to_float : string -> option Q) :
  (exists d, _detect_distribution str_to_float zero_mean_rows "m" = Ok (Some d))
  /\ _detect_anomalies str_to_float zero_mean_rows "m" None = Raise ZeroDivisionError.
Proof. split; [eexists |]; vm_compute; reflexivity. Qed.

(** A non-numeric metric in the middle row: the trend path converts the
    first and the last value inside [try], the middle value outside. *)
Lemma detect_raises_on_gap (str_to_float : string -> option Q) :
  _detect_trends str_to_float gap_rows "m" "year" = Raise TypeError
  /\ detect_from_data str_to_float gap_rows "m" (Some "year") None = Raise TypeError.
Proof. split; vm_compute; reflexivity. Qed.

(** *** The fields with fixed values *)

Section Fields.

Variable str_to_float : string -> option Q.

Lemma trend_direction_values (change_pct : Q) :
  In (snd (trend_direction change_pct)) direction_values.
Proof.
  unfold trend_direction.
  destruct (Qltb 2 change_pct); [simpl; tauto |].
  destruct (Qltb change_pct (-2)); simpl; tauto.
Qed.

Lemma trend_magnitude_values (change_pct : Q) :
  In (trend_magnitude change_pct) magnitude_values.
Proof.
  unfold trend_magnitude.
  destruct (Qltb _ _); [simpl; tauto |].
  destruct (Qltb _ _); [simpl; tauto |].
  destruct (Qltb _ _); simpl; tauto.
Qed.

Lemma trend_velocity_values (sorted_data : list Dict) (metric_col : string)
  (first_val last_val : Q) (v : string) :
  trend_velocity str_to_float sorted_data metric_col first_val last_val = Ok v ->
  In v velocity_values.
Proof.
  unfold trend_velocity.
  destruct (3 <=? List.length sorted_data)%nat.
  - intro H. bind_ok H.
    destruct (Qltb _ _); [injection H as <-; simpl; tauto |].
    destruct (Qltb _ _); injection H as <-; simpl; tauto.
  - intro H. injection H as <-. simpl. tauto.
Qed.

Lemma detect_trends_fields (data : list Dict) (metric_col time_col : string)
  (l : list DetectedInsight) :
  _detect_trends str_to_float data metric_col time_col = Ok l ->
  Forall enumerated_fields l.
Proof.
  unfold _detect_trends.
  destruct (List.length (sorted_by_time data time_col) <? 2)%nat;
    [intro H; injection H as <-; constructor |].
  destruct (bind _ _) as [[first_val last_val] | e].
  2: { destruct e; intro H; try discriminate H; injection H as <-; constructor. }
  destruct (Qeq_bool first_val 0); [intro H; injection H as <-; constructor |].
  intro H. bind_ok H.
  rewrite (surjective_pairing (trend_direction (a * 100))) in H.
  bind_ok H. injection H as <-.
  constructor; [| constructor].
  split; [| split]; simpl.
  - apply trend_magnitude_values.
  - apply (trend_velocity_values _ _ _ _ _ E0).
  - left. apply trend_direction_values.
Qed.

Lemma detect_comparisons_fields (data : list Dict) (metric_col group_col : string)
  (time_col : option string) (l : list DetectedInsight) :
  _detect_comparisons str_to_float data metric_col group_col time_col = Ok l ->
  Forall enumerated_fields l.
Proof.
  unfold _detect_comparisons. intro H. bind_ok H.
  destruct (List.length a <? 2)%nat; [injection H as <-; constructor |].
  destruct (nth 0 _ _) as [top_group top_val].
  destruct (last _ _) as [bottom_group bottom_val].
  bind_ok H. bind_ok H. injection H as <-.
  constructor; [| constructor].
  split; [| split]; simpl.
  - destruct (Qltb _ _); tauto.
  - tauto.
  - left. tauto.
Qed.

Lemma detect_distribution_fields (data : list Dict) (metric_col : string)
  (i : DetectedInsight) :
  _detect_distribution str_to_float data metric_col = Ok (Some i) ->
  enumerated_fields i.
Proof.
  unfold _detect_distribution.
  destruct (List.length _ <? 3)%nat; [discriminate |].
  intro H. do 4 bind_ok H. injection H as <-.
  split; [| split]; simpl; tauto.
Qed.

Lemma outliers_fields (data : list Dict) (metric_col : string)
  (group_col : option string) (mean_val stdev : Q) (l : list DetectedInsight) :
  outliers str_to_float data metric_col group_col mean_val stdev = Ok l ->
  Forall enumerated_fields l.
Proof.
  revert l. induction data as [| row rest IH]; intros l H; simpl in H.
  - injection H as <-. constructor.
  - destruct (py_float _ _) as [val | e]; [| apply IH; exact H].
    bind_ok H.
    destruct (Qltb 2 (Qabs a)); [| apply IH; exact H].
    do 2 bind_ok H. injection H as <-.
    constructor; [| apply IH; reflexivity].
    split; [| split]; simpl; try tauto.
    right. split; [reflexivity |]. destruct (Qltb 0 a); simpl; tauto.
Qed.

Lemma detect_anomalies_fields (data : list Dict) (metric_col : string)
  (group_col : option string) (l : list DetectedInsight) :
  _detect_anomalies str_to_float data metric_col group_col = Ok l ->
  Forall enumerated_fields l.
Proof.
  unfold _detect_anomalies.
  destruct (List.length _ <? 5)%nat; [intro H; injection H as <-; constructor |].
  intro H. do 2 bind_ok H.
  destruct (Qeq_bool a0 0); [injection H as <-; constructor |].
  bind_ok H. injection H as <-.
  apply outliers_fields in E1.
  apply Forall_forall. intros i Hi.
  apply (proj1 (Forall_forall _ _) E1).
  rewrite <- (firstn_skipn 3 a1). apply in_or_app. left. exact Hi.
Qed.

(** Whatever the rows and the columns, an insight of the miner has its
    magnitude in {small, moderate, large, dramatic} and its velocity in
    {gradual, steady, accelerating, decelerating}; its direction is in
    {up, down, stable, comparison} unless it is an anomaly insight, whose
    direction is "high" or "low". *)
Lemma detect_from_data_fields (data : list Dict) (metric_column : string)
  (time_column group_column : option string) (l : list DetectedInsight) :
  detect_from_data str_to_float data metric_column time_column group_column = Ok l ->
  Forall enumerated_fields l.
Proof.
  unfold detect_from_data.
  destruct data as [| row0 rest]; [intro H; injection H as <-; constructor |].
  destruct (negb _); [intro H; injection H as <-; constructor |].
  intro H. do 4 bind_ok H. injection H as <-.
  apply Forall_app; split; [| apply Forall_app; split; [| apply Forall_app; split]].
  - destruct time_column as [tc |]; [| injection E as <-; constructor].
    destruct (str_truthy tc && dict_in tc row0);
      [apply (detect_trends_fields _ _ _ _ E) | injection E as <-; constructor].
  - destruct group_column as [gc |]; [| injection E0 as <-; constructor].
    destruct (str_truthy gc && dict_in gc row0);
      [apply (detect_comparisons_fields _ _ _ _ _ E0)
      | injection E0 as <-; constructor].
  - destruct (negb (col_given group_column)); [| injection E1 as <-; constructor].
    bind_ok E1. injection E1 as <-.
    destruct a3 as [i |]; [| constructor].
    constructor; [| constructor]. apply (detect_distribution_fields _ _ _ E3).
  - apply (detect_anomalies_fields _ _ _ _ E2).
Qed.

End Fields.

(** *** The orchestrator *)

Lemma select_primary_in (insights : list DetectedInsight) (analysis : QueryAnalysis)
  (p : DetectedInsight) :
  ReasoningEngine._select_primary_insight insights analysis = Some p ->
  In p insights.
Proof.
  unfold ReasoningEngine._select_primary_insight.
  destruct insights as [| i l]; [discriminate |].
  intro H. unfold sorted_desc in H.
  apply (Permutation_in p (Permutation_sym
           (sort_float_perm (fun a b => Qltb b a)
              (ReasoningEngine.score_insight analysis) (i :: l)))).
  destruct (sort_float _ _ (i :: l)) as [| x s]; [discriminate H |].
  injection H as <-. left. reflexivity.
Qed.

Lemma select_primary_some (insights : list DetectedInsight) (analysis : QueryAnalysis) :
  insights <> [] ->
  exists p, ReasoningEngine._select_primary_insight insights analysis = Some p.
Proof.
  intro Hne. unfold ReasoningEngine._select_primary_insight.
  destruct insights as [| i l]; [contradiction Hne; reflexivity |].
  unfold sorted_desc.
  assert (Hp := sort_float_perm (fun a b => Qltb b a)
                  (ReasoningEngine.score_insight analysis) (i :: l)).
  destruct (sort_float _ _ (i :: l)) as [| x s].
  - apply Permutation_sym, Permutation_nil in Hp. discriminate Hp.
  - exists x. reflexivity.
Qed.

(** The insights the orchestrator builds have no [previous_value]. *)
Lemma detect_insights_bare (context_data : list ContextItem)
  (analysis : QueryAnalysis) (i : DetectedInsight) :
  In i (ReasoningEngine._detect_insights context_data analysis) ->
  previous_value i = PNone /\ time_range i = None.
Proof.
  unfold ReasoningEngine._detect_insights.
  destruct (find has_historical context_data); simpl; intro H.
  - destruct H as [<- | []]. split; reflexivity.
  - contradiction H.
Qed.

Section Orchestrator.

Variable analyze : string -> QueryAnalysis.
Variable _retrieve_context :
  QueryAnalysis -> option string -> list ContextItem * list string.


(** When the mode is "story" and there is a primary insight, [reason]
    gives no result: the narrative builder raises on the insight. *)
Lemma reason_story_raises (query : string) (force_mode domain_override : option string) :
  let analysis := analyze query in
  let found := ReasoningEngine._detect_insights
                 (fst (_retrieve_context analysis domain_override)) analysis in
  ReasoningEngine._decide_output_mode analysis found force_mode = "story" ->
  found <> [] ->
  ReasoningEngine.reason analyze _retrieve_context query force_mode domain_override
  = Raise TypeError.
Proof.
  intros analysis found Hmode Hne.
  unfold ReasoningEngine.reason. fold analysis.
  destruct (_retrieve_context analysis domain_override)
    as [context_data sources] eqn:Hr.
  simpl fst in found. fold found. rewrite Hmode. simpl String.eqb.
  destruct (select_primary_some found analysis Hne) as [p Hp].
  rewrite Hp. cbv iota beta.
  assert (Hb : previous_value p = PNone).
  { apply (detect_insights_bare context_data analysis).
    apply select_primary_in with (analysis := analysis). exact Hp. }
  rewrite (generate_raises_on_none p _ _ Hb). reflexivity.
Qed.

(** C10, amended: when retrieval yields no context and no mode is forced,
    [reason] returns a result with [context_found] false, no insight, no
    primary insight, no narrative and [overall_confidence] 0; its
    [output_mode] is "story" when the analysis requires historical data
    and has the trend intent, and "data" otherwise. *)
Theorem reason_without_context (query : string) (domain_override : option string) :
  fst (_retrieve_context (analyze query) domain_override) = [] ->
  exists r,
    ReasoningEngine.reason analyze _retrieve_context query None domain_override = Ok r
    /\ context_found r = false
    /\ insights r = []
    /\ primary_insight r = None
    /\ narrative r = None
    /\ overall_confidence r == 0
    /\ output_mode r
       = if requires_historical (analyze query)
            && QueryIntent.eqb (intent (analyze query)) QueryIntent.TREND
         then "story" else "data".
Proof.
  unfold ReasoningEngine.reason.
  destruct (_retrieve_context (analyze query) domain_override)
    as [context_data sources].
  simpl fst. intros ->. simpl ReasoningEngine._detect_insights.
  simpl ReasoningEngine._select_primary_insight.
  unfold ReasoningEngine._decide_output_mode. simpl orb.
  destruct (requires_historical (analyze query)
            && QueryIntent.eqb (intent (analyze query)) QueryIntent.TREND);
    simpl; eexists; (split; [reflexivity |]); simpl; repeat split.
Qed.

End Orchestrator.


(** C10, as stated, fails: for a trend question the mode is "story" although
    nothing was retrieved. *)
Lemma trend_query_without_context_is_story :
  ~ (forall analyze _retrieve_context query domain_override,
       fst (_retrieve_context (analyze query) domain_override) = [] ->
       exists r,
         ReasoningEngine.reason analyze _retrieve_context query None domain_override
         = Ok r
         /\ context_found r = false
         /\ overall_confidence r == 0
         /\ output_mode r = "data").
Proof.
  intro H.
  destruct (H (fun _ => literacy_changed) no_store
              "How has literacy changed in Telangana?" None eq_refl)
    as [r [Hr [_ [_ Hmode]]]].
  vm_compute in Hr. injection Hr as <-. discriminate Hmode.
Qed.

Lemma reason_without_context_witness :
  exists r,
    ReasoningEngine.reason (fun _ => highest_literacy) no_store
      "Which district has the highest literacy rate?" None None = Ok r
    /\ context_found r = false
    /\ overall_confidence r == 0
    /\ output_mode r = "data".
Proof.
  destruct (reason_without_context (fun _ => highest_literacy) no_store
              "Which district has the highest literacy rate?" None eq_refl)
    as [r [H1 [H2 [_ [_ [_ [H3 H4]]]]]]].
  exists r. repeat split; assumption.
Defined.


(** * Further properties of the miner *)

Lemma sort_float_length {A} (before : Q -> Q -> bool) (key : A -> Q) (l : list A) :
  List.length (sort_float before key l) = List.length l.
Proof.
  symmetry. apply Permutation_length. apply sort_float_perm.
Qed.





Section MinerPaths.

Variable str_to_float : string -> option Q.






Lemma outliers_flagged (data : list Dict) (metric_col : string)
  (group_col : option string) (mean_val stdev : Q) (l : list DetectedInsight) :
  outliers str_to_float data metric_col group_col mean_val stdev = Ok l ->
  Forall (fun i =>
            exists row val,
              In row data
              /\ data_points i = [row]
              /\ py_float str_to_float (dict_get row metric_col (PInt 0)) = Ok val
              /\ current_value i = PFloat val
              /\ previous_value i = PFloat mean_val
              /\ 2 < Qabs ((val - mean_val) / stdev)
              /\ insight_type i = ANOMALY
              /\ sentiment i = WARNING
              /\ confidence i = 0.7) l.
Proof.
  revert l. induction data as [| row rest IH]; intros l H; simpl in H.
  - injection H as <-. constructor.
  - assert (Hrest : forall l', outliers str_to_float rest metric_col group_col
                                 mean_val stdev = Ok l' ->
              Forall (fun i =>
                exists row0 val,
                  In row0 (row :: rest)
                  /\ data_points i = [row0]
                  /\ py_float str_to_float (dict_get row0 metric_col (PInt 0)) = Ok val
                  /\ current_value i = PFloat val
                  /\ previous_value i = PFloat mean_val
                  /\ 2 < Qabs ((val - mean_val) / stdev)
                  /\ insight_type i = ANOMALY
                  /\ sentiment i = WARNING
                  /\ confidence i = 0.7) l').
    { intros l' Hl'. apply IH in Hl'. apply Forall_forall. intros i Hi.
      destruct (proj1 (Forall_forall _ _) Hl' i Hi) as [row0 [val [Hin Hrest]]].
      exists row0, val. split; [right; exact Hin | exact Hrest]. }
    destruct (py_float _ _) as [val |] eqn:Hval; [| apply Hrest; exact H].
    unfold py_div at 1 in H.
    destruct (Qeq_bool stdev 0); simpl bind in H; [discriminate H |].
    destruct (Qltb 2 _) eqn:Hz; [| apply Hrest; exact H].
    do 2 bind_ok H. injection H as <-.
    constructor; [| apply Hrest; reflexivity].
    exists row, val. simpl.
    repeat split; try reflexivity; try (left; reflexivity); try exact Hval.
    apply Qltb_true in Hz. exact Hz.
Qed.

(** [_detect_anomalies] returns at most three insights, and each of them
    is an anomaly insight, with the warning sentiment and confidence 0.7,
    about one row of the data whose metric is more than two standard
    deviations away from the mean. *)
Theorem detect_anomalies_flagged (data : list Dict) (metric_col : string)
  (group_col : option string) (l : list DetectedInsight) :
  _detect_anomalies str_to_float data metric_col group_col = Ok l ->
  (List.length l <= 3)%nat
  /\ forall i, In i l ->
       exists row val m sd,
         In row data
         /\ data_points i = [row]
         /\ py_float str_to_float (dict_get row metric_col (PInt 0)) = Ok val
         /\ current_value i = PFloat val
         /\ statistics_mean (numeric_values str_to_float data metric_col) = Ok m
         /\ statistics_stdev (numeric_values str_to_float data metric_col) = Ok sd
         /\ previous_value i = PFloat m
         /\ 2 < Qabs ((val - m) / sd)
         /\ insight_type i = ANOMALY
         /\ sentiment i = WARNING
         /\ confidence i = 0.7.
Proof.
  unfold _detect_anomalies.
  destruct (List.length _ <? 5)%nat.
  - intro H. injection H as <-. split; [simpl; lia | intros i []].
  - intro H. do 2 bind_ok H.
    destruct (Qeq_bool a0 0).
    + injection H as <-. split; [simpl; lia | intros i []].
    + bind_ok H. injection H as <-.
      split; [apply (firstn_le_length 3 a1) |].
      intros i Hi.
      assert (Hin : In i a1).
      { rewrite <- (firstn_skipn 3 a1). apply in_or_app. left.
        change (In i (firstn 3 a1)) in Hi. exact Hi. }
      apply outliers_flagged in E1.
      destruct (proj1 (Forall_forall _ _) E1 i Hin)
        as [row [val [H1 [H2 [H3 [H4 [H5 [H6 [H7 [H8 H9]]]]]]]]]].
      exists row, val, a, a0. repeat split; assumption.
Qed.

End MinerPaths.

Lemma detect_anomalies_flagged_witness :
  exists l,
    _detect_anomalies (fun _ => None) outlier_rows "m" None = Ok l
    /\ (List.length l <= 3)%nat.
Proof.
  eexists. split; [vm_compute; reflexivity |].
  apply (detect_anomalies_flagged (fun _ => None) outlier_rows "m" None).
  vm_compute. reflexivity.
Defined.

(** *** Rankings *)






Section Rankings.

Variable str_to_float : string -> option Q.


End Rankings.

(** *** Trends *)

Section TrendInsights.

Variable str_to_float : string -> option Q.


(** The evidence rows of the trend insight are the sorted rows. *)
Lemma detect_trends_insight_points (data : list Dict) (metric_col time_col : string)
  (l : list DetectedInsight) :
  _detect_trends str_to_float data metric_col time_col = Ok l ->
  forall i, In i l -> data_points i = sorted_by_time data time_col.
Proof.
  unfold _detect_trends.
  destruct (List.length _ <? 2)%nat; [intro H; injection H as <-; intros i [] |].
  destruct (bind _ _) as [[first_val last_val] | e].
  2: { destruct e; intro H; try discriminate H; injection H as <-; intros i []. }
  destruct (Qeq_bool first_val 0); [intro H; injection H as <-; intros i [] |].
  intro H. bind_ok H.
  rewrite (surjective_pairing (trend_direction (a * 100))) in H.
  bind_ok H. injection H as <-.
  intros i [<- | []]. reflexivity.
Qed.



(** When the time of every row is a number, the evidence rows of the trend
    insight are in ascending order of time, and the first and the last of
    them bound the time of every row of the data. *)
Theorem detect_trends_rows_in_time_order (data : list Dict)
  (metric_col time_col : string) (i : DetectedInsight) :
  Forall (numeric_key (time_key time_col)) data ->
  _detect_trends str_to_float data metric_col time_col = Ok [i] ->
  StronglySorted (key_le (time_key time_col)) (data_points i)
  /\ forall row, In row data ->
       key_le (time_key time_col) (nth 0 (data_points i) []) row
       /\ key_le (time_key time_col) row (last (data_points i) []).
Proof.
  intros Hnum H.
  assert (Hd : data_points i = sorted_by_time data time_col).
  { apply (detect_trends_insight_points data metric_col time_col [i] H).
    left. reflexivity. }
  destruct (py_sorted_numeric (time_key time_col) data Hnum) as [r [Hr [Hp Hs]]].
  assert (Hsd : sorted_by_time data time_col = r).
  { unfold sorted_by_time. fold (time_key time_col). rewrite Hr. reflexivity. }
  rewrite Hd, Hsd. split; [exact Hs |].
  intros row Hrow. apply (Permutation_in row Hp) in Hrow.
  clear Hr Hp Hsd Hd H Hnum.
  induction Hs as [| x t Hs IH Hall]; [contradiction Hrow |].
  destruct Hrow as [<- | Hrow].
  - split; [apply Qle_refl |].
    destruct t as [| y t]; [apply Qle_refl |].
    change (last (x :: y :: t) []) with (last (y :: t) []).
    apply (proj1 (Forall_forall _ _) Hall). apply in_last. discriminate.
  - split; [apply (proj1 (Forall_forall _ _) Hall); exact Hrow |].
    destruct t as [| y t]; [contradiction Hrow |].
    change (last (x :: y :: t) []) with (last (y :: t) []).
    apply IH. exact Hrow.
Qed.

End TrendInsights.

(** *** Sentiment *)

(** The sentiment of a falling metric is the opposite of the sentiment of
    the same metric rising; any other direction is neutral, and the
    sentiment of a trend is never the warning one. *)
Theorem determine_sentiment_directions (metric direction : string) :
  _determine_sentiment metric "down"
  = opposite_sentiment (_determine_sentiment metric "up")
  /\ (direction <> "up" -> direction <> "down" ->
      _determine_sentiment metric direction = NEUTRAL)
  /\ _determine_sentiment metric direction <> WARNING.
Proof.
  unfold _determine_sentiment. cbv zeta.
  generalize (existsb (fun n => contains n (lower metric)) NEGATIVE_METRICS).
  generalize (existsb (fun p => contains p (lower metric)) POSITIVE_METRICS).
  intros positive negative.
  destruct positive; destruct negative;
    (split; [reflexivity |]);
    destruct (String.eqb_spec direction "up");
    destruct (String.eqb_spec direction "down");
    split; intros; try discriminate; try reflexivity; try contradiction.
Qed.

Lemma determine_sentiment_directions_witness :
  _determine_sentiment "Literacy_Rate" "stable" = NEUTRAL
  /\ _determine_sentiment "Literacy_Rate" "up" = POSITIVE
  /\ _determine_sentiment "Literacy_Rate" "down" = NEGATIVE.
Proof.
  split; [| split; reflexivity].
  apply (proj1 (proj2 (determine_sentiment_directions "Literacy_Rate" "stable")));
    discriminate.
Defined.

(** *** What [detect_from_data] returns *)

Ltac empty_part :=
  repeat split; try (simpl; lia); try constructor;
  try (let K := fresh "K" in intro K; contradiction K; reflexivity).

Section MinerResult.

Variable str_to_float : string -> option Q.

Lemma detect_trends_kind (data : list Dict) (metric_col time_col : string)
  (l : list DetectedInsight) :
  _detect_trends str_to_float data metric_col time_col = Ok l ->
  (List.length l <= 1)%nat
  /\ Forall (fun i => In (insight_type i) [GROWTH; DECLINE; STABILITY]
                      /\ confidence i = 0.85) l.
Proof.
  unfold _detect_trends.
  destruct (List.length _ <? 2)%nat;
    [intro H; injection H as <-; split; [simpl; lia | constructor] |].
  destruct (bind _ _) as [[first_val last_val] | e].
  2: { destruct e; intro H; try discriminate H; injection H as <-;
       split; try (simpl; lia); constructor. }
  destruct (Qeq_bool first_val 0);
    [intro H; injection H as <-; split; [simpl; lia | constructor] |].
  intro H. bind_ok H.
  rewrite (surjective_pairing (trend_direction (a * 100))) in H.
  bind_ok H. injection H as <-.
  split; [simpl; lia |]. constructor; [| constructor].
  split; [| reflexivity]. simpl. unfold trend_direction.
  destruct (Qltb _ _); [simpl; tauto |]. destruct (Qltb _ _); simpl; tauto.
Qed.

Lemma detect_comparisons_kind (data : list Dict) (metric_col group_col : string)
  (time_col : option string) (l : list DetectedInsight) :
  _detect_comparisons str_to_float data metric_col group_col time_col = Ok l ->
  (List.length l <= 1)%nat
  /\ Forall (fun i => insight_type i = RANKING /\ confidence i = 0.9) l.
Proof.
  unfold _detect_comparisons. intro H. bind_ok H.
  destruct (List.length a <? 2)%nat;
    [injection H as <-; split; [simpl; lia | constructor] |].
  destruct (nth 0 _ _) as [top_group top_val].
  destruct (last _ _) as [bottom_group bottom_val].
  do 2 bind_ok H. injection H as <-.
  split; [simpl; lia |]. constructor; [| constructor]. split; reflexivity.
Qed.

Lemma detect_distribution_kind (data : list Dict) (metric_col : string)
  (i : DetectedInsight) :
  _detect_distribution str_to_float data metric_col = Ok (Some i) ->
  insight_type i = DISTRIBUTION /\ confidence i = 0.75.
Proof.
  unfold _detect_distribution.
  destruct (List.length _ <? 3)%nat; [discriminate |].
  intro H. do 4 bind_ok H. injection H as <-. split; reflexivity.
Qed.

Lemma detect_anomalies_kind (data : list Dict) (metric_col : string)
  (group_col : option string) (l : list DetectedInsight) :
  _detect_anomalies str_to_float data metric_col group_col = Ok l ->
  (List.length l <= 3)%nat
  /\ Forall (fun i => insight_type i = ANOMALY /\ confidence i = 0.7) l.
Proof.
  unfold _detect_anomalies.
  destruct (List.length _ <? 5)%nat;
    [intro H; injection H as <-; split; [simpl; lia | constructor] |].
  intro H. do 2 bind_ok H.
  destruct (Qeq_bool a0 0);
    [injection H as <-; split; [simpl; lia | constructor] |].
  bind_ok H. injection H as <-.
  split; [apply (firstn_le_length 3 a1) |].
  apply outliers_flagged in E1.
  apply Forall_forall. intros i Hi. change (In i (firstn 3 a1)) in Hi.
  assert (Hin : In i a1).
  { rewrite <- (firstn_skipn 3 a1). apply in_or_app. left. exact Hi. }
  destruct (proj1 (Forall_forall _ _) E1 i Hin)
    as [row [val [_ [_ [_ [_ [_ [_ [H7 [_ H9]]]]]]]]]].
  split; assumption.
Qed.

(** The result of [detect_from_data] is the insights of the four paths, in
    the order trend, ranking, distribution, anomalies. *)
Lemma detect_from_data_parts (data : list Dict) (metric_column : string)
  (time_column group_column : option string) (l : list DetectedInsight) :
  detect_from_data str_to_float data metric_column time_column group_column = Ok l ->
  exists t c d a,
    l = (t ++ c ++ d ++ a)%list
    /\ (List.length t <= 1)%nat /\ (List.length c <= 1)%nat
    /\ (List.length d <= 1)%nat /\ (List.length a <= 3)%nat
    /\ (t <> [] -> col_given time_column = true)
    /\ (c <> [] -> col_given group_column = true)
    /\ (d <> [] -> col_given group_column = false)
    /\ Forall (fun i => In (insight_type i) [GROWTH; DECLINE; STABILITY]
                        /\ confidence i = 0.85) t
    /\ Forall (fun i => insight_type i = RANKING /\ confidence i = 0.9) c
    /\ Forall (fun i => insight_type i = DISTRIBUTION /\ confidence i = 0.75) d
    /\ Forall (fun i => insight_type i = ANOMALY /\ confidence i = 0.7) a.
Proof.
  unfold detect_from_data.
  destruct data as [| row0 rest].
  { intro H. injection H as <-. exists [], [], [], [].
    repeat split; try (simpl; lia); try constructor;
      intro K; contradiction K; reflexivity. }
  destruct (negb _).
  { intro H. injection H as <-. exists [], [], [], [].
    repeat split; try (simpl; lia); try constructor;
      intro K; contradiction K; reflexivity. }
  intro H. do 4 bind_ok H. injection H as <-.
  exists a, a0, a1, a2.
  assert (Ht : (List.length a <= 1)%nat
               /\ (a <> [] -> col_given time_column = true)
               /\ Forall (fun i => In (insight_type i) [GROWTH; DECLINE; STABILITY]
                                   /\ confidence i = 0.85) a).
  { destruct time_column as [tc |]; [| injection E as <-; empty_part].
    destruct (str_truthy tc) eqn:Htc; simpl andb in E;
      [| injection E as <-; empty_part].
    destruct (dict_in tc row0); [| injection E as <-; empty_part].
    destruct (detect_trends_kind _ _ _ _ E) as [H1 H2].
    split; [exact H1 | split; [intros _; exact Htc | exact H2]]. }
  assert (Hc : (List.length a0 <= 1)%nat
               /\ (a0 <> [] -> col_given group_column = true)
               /\ Forall (fun i => insight_type i = RANKING /\ confidence i = 0.9) a0).
  { destruct group_column as [gc |]; [| injection E0 as <-; empty_part].
    destruct (str_truthy gc) eqn:Hgc; simpl andb in E0;
      [| injection E0 as <-; empty_part].
    destruct (dict_in gc row0); [| injection E0 as <-; empty_part].
    destruct (detect_comparisons_kind _ _ _ _ _ E0) as [H1 H2].
    split; [exact H1 | split; [intros _; exact Hgc | exact H2]]. }
  assert (Hd : (List.length a1 <= 1)%nat
               /\ (a1 <> [] -> col_given group_column = false)
               /\ Forall (fun i => insight_type i = DISTRIBUTION
                                   /\ confidence i = 0.75) a1).
  { destruct (col_given group_column) eqn:Hg; simpl negb in E1; cbv iota in E1;
      [injection E1 as <-; empty_part |].
    bind_ok E1. injection E1 as <-.
    destruct a3 as [i |]; [| empty_part].
    split; [simpl; lia | split; [reflexivity |]].
    constructor; [| constructor].
    apply (detect_distribution_kind _ _ _ E3). }
  destruct (detect_anomalies_kind _ _ _ _ E2) as [Ha1 Ha2].
  destruct Ht as [Ht1 [Ht2 Ht3]]. destruct Hc as [Hc1 [Hc2 Hc3]].
  destruct Hd as [Hd1 [Hd2 Hd3]].
  repeat split; assumption.
Qed.

(** [detect_from_data] returns at most five insights: at most one trend
    insight, at most one ranking or one distribution insight, never both,
    and at most three anomaly insights.  A trend insight needs a time
    column, a ranking insight a group column, a distribution insight the
    absence of a group column; no insight has the type comparison,
    correlation or threshold. *)
Theorem detect_from_data_at_most_five (data : list Dict) (metric_column : string)
  (time_column group_column : option string) (l : list DetectedInsight) :
  detect_from_data str_to_float data metric_column time_column group_column = Ok l ->
  (List.length l <= 5)%nat
  /\ forall i, In i l ->
       In (insight_type i) [GROWTH; DECLINE; STABILITY; RANKING; DISTRIBUTION; ANOMALY]
       /\ (In (insight_type i) [GROWTH; DECLINE; STABILITY] ->
           col_given time_column = true)
       /\ (insight_type i = RANKING -> col_given group_column = true)
       /\ (insight_type i = DISTRIBUTION -> col_given group_column = false).
Proof.
  intro H.
  destruct (detect_from_data_parts _ _ _ _ _ H)
    as [t [c [d [a [-> [Lt [Lc [Ld [La [Gt [Gc [Gd [Ft [Fc [Fd Fa]]]]]]]]]]]]]]].
  split.
  - rewrite !length_app.
    destruct c as [| x c]; [simpl; lia |].
    destruct d as [| y d]; [simpl in *; lia |].
    assert (K1 : col_given group_column = true) by (apply Gc; discriminate).
    assert (K2 : col_given group_column = false) by (apply Gd; discriminate).
    rewrite K1 in K2. discriminate K2.
  - intros i Hi.
    apply in_app_or in Hi. destruct Hi as [Hi | Hi].
    { destruct (proj1 (Forall_forall _ _) Ft i Hi) as [Ht _].
      assert (Hne : t <> []) by (intro E; rewrite E in Hi; contradiction Hi).
      repeat split.
      - simpl in *. tauto.
      - intros _. apply Gt. exact Hne.
      - intro K. rewrite K in Ht. simpl in Ht.
        destruct Ht as [Ht | [Ht | [Ht | []]]]; discriminate Ht.
      - intro K. rewrite K in Ht. simpl in Ht.
        destruct Ht as [Ht | [Ht | [Ht | []]]]; discriminate Ht. }
    apply in_app_or in Hi. destruct Hi as [Hi | Hi].
    { destruct (proj1 (Forall_forall _ _) Fc i Hi) as [Ht _].
      assert (Hne : c <> []) by (intro E; rewrite E in Hi; contradiction Hi).
      rewrite Ht. repeat split.
      - simpl. tauto.
      - intros [K | [K | [K | []]]]; discriminate K.
      - intros _. apply Gc. exact Hne.
      - intro K. discriminate K. }
    apply in_app_or in Hi. destruct Hi as [Hi | Hi].
    { destruct (proj1 (Forall_forall _ _) Fd i Hi) as [Ht _].
      assert (Hne : d <> []) by (intro E; rewrite E in Hi; contradiction Hi).
      rewrite Ht. repeat split.
      - simpl. tauto.
      - intros [K | [K | [K | []]]]; discriminate K.
      - intro K. discriminate K.
      - intros _. apply Gd. exact Hne. }
    destruct (proj1 (Forall_forall _ _) Fa i Hi) as [Ht _].
    rewrite Ht. repeat split.
    + simpl. tauto.
    + intros [K | [K | [K | []]]]; discriminate K.
    + intro K. discriminate K.
    + intro K. discriminate K.
Qed.

(** Every insight of [detect_from_data] has its confidence in [0,1]: 0.85
    for a trend, 0.9 for a ranking, 0.75 for a distribution and 0.7 for an
    anomaly. *)
Theorem detect_from_data_confidence (data : list Dict) (metric_column : string)
  (time_column group_column : option string) (l : list DetectedInsight) :
  detect_from_data str_to_float data metric_column time_column group_column = Ok l ->
  forall i, In i l ->
    unit_confidence i
    /\ (In (insight_type i) [GROWTH; DECLINE; STABILITY] -> confidence i = 0.85)
    /\ (insight_type i = RANKING -> confidence i = 0.9)
    /\ (insight_type i = DISTRIBUTION -> confidence i = 0.75)
    /\ (insight_type i = ANOMALY -> confidence i = 0.7).
Proof.
  intros H i Hi.
  destruct (detect_from_data_parts _ _ _ _ _ H)
    as [t [c [d [a [-> [_ [_ [_ [_ [_ [_ [_ [Ft [Fc [Fd Fa]]]]]]]]]]]]]]].
  unfold unit_confidence.
  apply in_app_or in Hi. destruct Hi as [Hi | Hi].
  { destruct (proj1 (Forall_forall _ _) Ft i Hi) as [Ht Hc]. rewrite Hc.
    repeat split; try lra; try reflexivity;
      intro K; rewrite K in Ht; simpl in Ht;
      destruct Ht as [Ht | [Ht | [Ht | []]]]; discriminate Ht. }
  apply in_app_or in Hi. destruct Hi as [Hi | Hi].
  { destruct (proj1 (Forall_forall _ _) Fc i Hi) as [Ht Hc]. rewrite Hc, Ht.
    repeat split; try lra; try reflexivity; try (intro K; discriminate K).
    intros [K | [K | [K | []]]]; discriminate K. }
  apply in_app_or in Hi. destruct Hi as [Hi | Hi].
  { destruct (proj1 (Forall_forall _ _) Fd i Hi) as [Ht Hc]. rewrite Hc, Ht.
    repeat split; try lra; try reflexivity; try (intro K; discriminate K).
    intros [K | [K | [K | []]]]; discriminate K. }
  destruct (proj1 (Forall_forall _ _) Fa i Hi) as [Ht Hc]. rewrite Hc, Ht.
  repeat split; try lra; try reflexivity; try (intro K; discriminate K).
  intros [K | [K | [K | []]]]; discriminate K.
Qed.

End MinerResult.

(** *** The properties of the miner on the rows of the tests *)




Lemma literacy_rows_numeric_time :
  Forall (numeric_key (time_key "year")) literacy_rows.
Proof. repeat constructor; discriminate. Qed.

Lemma detect_trends_rows_in_time_order_witness :
  exists i,
    _detect_trends (fun _ => None) literacy_rows "literacy" "year" = Ok [i]
    /\ StronglySorted (key_le (time_key "year")) (data_points i).
Proof.
  eexists. split; [vm_compute; reflexivity |].
  apply (detect_trends_rows_in_time_order (fun _ => None) literacy_rows
           "literacy" "year" _ literacy_rows_numeric_time eq_refl).
Defined.

Lemma detect_from_data_at_most_five_witness :
  exists l,
    detect_from_data (fun _ => None) literacy_rows "literacy" (Some "year") None = Ok l
    /\ (List.length l <= 5)%nat.
Proof.
  eexists. split; [vm_compute; reflexivity |].
  apply (detect_from_data_at_most_five (fun _ => None) literacy_rows "literacy"
           (Some "year") None).
  vm_compute. reflexivity.
Defined.

Lemma detect_from_data_confidence_witness :
  exists g d,
    detect_from_data (fun _ => None) literacy_rows "literacy" (Some "year") None
    = Ok [g; d]
    /\ unit_confidence g.
Proof.
  eexists. eexists. split; [vm_compute; reflexivity |].
  apply (detect_from_data_confidence (fun _ => None) literacy_rows "literacy"
           (Some "year") None _ eq_refl).
  left. reflexivity.
Defined.

Lemma detect_from_data_fields_witness :
  exists d a,
    detect_from_data (fun _ => None) outlier_rows "m" None None = Ok [d; a]
    /\ Forall enumerated_fields [d; a].
Proof.
  eexists. eexists. split; [vm_compute; reflexivity |].
  apply (detect_from_data_fields (fun _ => None) outlier_rows "m" None None).
  vm_compute. reflexivity.
Defined.

Lemma generate_frame_order_witness :
  exists n,
    generate literacy_insight "education" "Telangana Education Statistics" = Ok n
    /\ map frame_type (get_frames n)
       = ["context"; "change"; "evidence"; "consequence"; "implication"].
Proof.
  eexists. split; [reflexivity |].
  apply (generate_frame_order literacy_insight "education"
           "Telangana Education Statistics").
  reflexivity.
Defined.

(** * Further properties of the orchestrator *)

Lemma sorted_desc_head {A} (key : A -> Q) (l : list A) (x : A) :
  hd_error (sorted_desc key l) = Some x ->
  exists l1 l2,
    l = (l1 ++ x :: l2)%list
    /\ (forall y, In y l1 -> key y < key x)
    /\ (forall y, In y l2 -> key y <= key x).
Proof.
  unfold sorted_desc. revert x. induction l as [| a l IH]; intros x H; simpl in H.
  - discriminate H.
  - destruct (sort_float (fun a0 b => Qltb b a0) key l) as [| h t] eqn:Hs.
    + simpl in H. injection H as <-.
      assert (Hl : l = []).
      { assert (Hn := sort_float_length (fun a0 b => Qltb b a0) key l).
        rewrite Hs in Hn. destruct l; [reflexivity | discriminate Hn]. }
      subst l. exists [], []. split; [reflexivity |]. split; intros y [].
    + destruct (IH h eq_refl) as [l1 [l2 [Hl [H1 H2]]]].
      simpl in H. destruct (Qltb (key a) (key h)) eqn:Hlt; simpl in H;
        injection H as <-.
      * apply Qltb_true in Hlt.
        exists (a :: l1), l2. split; [rewrite Hl; reflexivity |].
        split; [| exact H2].
        intros y [<- | Hy]; [exact Hlt | apply H1; exact Hy].
      * apply Qltb_false in Hlt.
        exists [], l. split; [reflexivity |]. split; [intros y [] |].
        intros y Hy. rewrite Hl in Hy. apply in_app_or in Hy.
        apply Qle_trans with (key h); [| exact Hlt].
        destruct Hy as [Hy | [<- | Hy]].
        -- apply Qlt_le_weak. apply H1. exact Hy.
        -- apply Qle_refl.
        -- apply H2. exact Hy.
Qed.

(** [_select_primary_insight] answers [None] exactly on the empty list;
    otherwise it selects an insight of the largest score, and among those
    the first of the list: every insight before it scores less, every
    insight after it does not score more. *)
Theorem select_primary_first_best (insights : list DetectedInsight)
  (analysis : QueryAnalysis) :
  (ReasoningEngine._select_primary_insight insights analysis = None
   <-> insights = [])
  /\ forall p,
       ReasoningEngine._select_primary_insight insights analysis = Some p ->
       exists before after,
         insights = (before ++ p :: after)%list
         /\ (forall i, In i before ->
               ReasoningEngine.score_insight analysis i
               < ReasoningEngine.score_insight analysis p)
         /\ (forall i, In i after ->
               ReasoningEngine.score_insight analysis i
               <= ReasoningEngine.score_insight analysis p).
Proof.
  split.
  - split; intro H; [| rewrite H; reflexivity].
    destruct insights as [| i l]; [reflexivity |].
    destruct (select_primary_some (i :: l) analysis) as [p Hp]; [discriminate |].
    rewrite Hp in H. discriminate H.
  - intros p H. unfold ReasoningEngine._select_primary_insight in H.
    destruct insights as [| i l]; [discriminate H |].
    apply sorted_desc_head. exact H.
Qed.

(** The score of an insight is its confidence, raised by 0.2 when its type
    is one the intent asks for; it is never below the confidence. *)
Lemma score_insight_bounds (analysis : QueryAnalysis) (i : DetectedInsight) :
  confidence i <= ReasoningEngine.score_insight analysis i
  /\ ReasoningEngine.score_insight analysis i <= confidence i + 0.2.
Proof.
  unfold ReasoningEngine.score_insight.
  destruct (ReasoningEngine.intent_match (intent analysis)) as [types |];
    [destruct (existsb _ types) |]; split; lra.
Qed.

(** [_detect_insights] builds at most one insight, and none exactly when no
    context item has historical depth; the insight takes its confidence
    from the first such item, is a growth insight when the normalized query
    contains "growth" and a stability insight otherwise, and has neither a
    previous value nor a time range. *)
Theorem detect_insights_first_historical (context_data : list ContextItem)
  (analysis : QueryAnalysis) :
  let found := ReasoningEngine._detect_insights context_data analysis in
  (List.length found <= 1)%nat
  /\ (found = [] <-> forall item, In item context_data -> has_historical item = false)
  /\ forall i, In i found ->
       exists before item after,
         context_data = (before ++ item :: after)%list
         /\ (forall x, In x before -> has_historical x = false)
         /\ has_historical item = true
         /\ confidence i = relevance item
         /\ insight_type i
            = (if contains "growth" (normalized_query analysis)
               then GROWTH else STABILITY)
         /\ previous_value i = PNone
         /\ time_range i = None.
Proof.
  unfold ReasoningEngine._detect_insights.
  induction context_data as [| x rest IH]; simpl find.
  - split; [simpl; lia |]. split; [split; [intros _ item [] | reflexivity] |].
    intros i [].
  - destruct (has_historical x) eqn:Hx.
    + split; [simpl; lia |]. split.
      * split; [discriminate |].
        intro H. rewrite (H x (or_introl eq_refl)) in Hx. discriminate Hx.
      * intros i [<- | []]. exists [], x, rest. simpl.
        repeat split; try reflexivity; try exact Hx. intros y [].
    + destruct IH as [IH1 [IH2 IH3]].
      split; [exact IH1 |]. split.
      * split.
        -- intros H item [<- | Hitem]; [exact Hx | apply IH2; assumption].
        -- intro H. apply IH2. intros item Hitem. apply H. right. exact Hitem.
      * intros i Hi.
        destruct (IH3 i Hi) as [before [item [after [Hc [Hb Hrest]]]]].
        exists (x :: before), item, after.
        split; [rewrite Hc; reflexivity |].
        split; [| exact Hrest].
        intros y [<- | Hy]; [exact Hx | apply Hb; exact Hy].
Qed.

Lemma select_primary_first_best_witness :
  exists before after,
    [bare_insight; literacy_insight] = (before ++ literacy_insight :: after)%list
    /\ (forall i, In i before ->
          ReasoningEngine.score_insight literacy_changed i
          < ReasoningEngine.score_insight literacy_changed literacy_insight).
Proof.
  destruct (proj2 (select_primary_first_best [bare_insight; literacy_insight]
                     literacy_changed) literacy_insight eq_refl)
    as [before [after [H1 [H2 _]]]].
  exists before, after. split; assumption.
Defined.

Lemma detect_insights_first_historical_witness :
  (List.length (ReasoningEngine._detect_insights literacy_context literacy_changed)
   <= 1)%nat
  /\ exists i,
       ReasoningEngine._detect_insights literacy_context literacy_changed = [i]
       /\ confidence i = 0.8.
Proof.
  split.
  - apply (proj1 (detect_insights_first_historical literacy_context literacy_changed)).
  - eexists. split; reflexivity.
Defined.

Lemma detect_insights_template (context_data : list ContextItem)
  (analysis : QueryAnalysis) (i : DetectedInsight) :
  In i (ReasoningEngine._detect_insights context_data analysis) ->
  recommended_template i = "hero_stat".
Proof.
  unfold ReasoningEngine._detect_insights.
  destruct (find has_historical context_data); simpl; intro H.
  - destruct H as [<- | []]. reflexivity.
  - contradiction H.
Qed.

Lemma Qmin_one_eq (a b : Q) : a == b -> Qmin a 1 == Qmin b 1.
Proof.
  intro H.
  destruct (Q.min_spec a 1) as [[H1 H2] | [H1 H2]];
    destruct (Q.min_spec b 1) as [[H3 H4] | [H3 H4]]; rewrite H2, H4; lra.
Qed.

Section ReasonOutcome.

Variable analyze : string -> QueryAnalysis.
Variable _retrieve_context :
  QueryAnalysis -> option string -> list ContextItem * list string.

(** The two outcomes of [reason]. *)
Lemma reason_cases (query : string) (force_mode domain_override : option string) :
  let analysis := analyze query in
  let context_data := fst (_retrieve_context analysis domain_override) in
  let found := ReasoningEngine._detect_insights context_data analysis in
  let mode := ReasoningEngine._decide_output_mode analysis found force_mode in
  (mode = "story" /\ (exists item, In item context_data /\ has_historical item = true) ->
   ReasoningEngine.reason analyze _retrieve_context query force_mode domain_override
   = Raise TypeError)
  /\ (~ (mode = "story"
         /\ exists item, In item context_data /\ has_historical item = true) ->
      exists r,
        ReasoningEngine.reason analyze _retrieve_context query force_mode domain_override
        = Ok r
        /\ narrative r = None
        /\ output_mode r = mode
        /\ insights r = found
        /\ (context_found r = true <-> context_data <> [])).
Proof.
  intros analysis context_data found mode.
  assert (Hfound : found <> [] <->
                   exists item, In item context_data /\ has_historical item = true).
  { unfold found, ReasoningEngine._detect_insights.
    destruct (find has_historical context_data) as [item |] eqn:Hf.
    - split; [| discriminate]. intros _. exists item.
      apply (find_some _ _ Hf).
    - split; [intro H; contradiction H; reflexivity |].
      intros [item [Hin Hh]].
      rewrite (find_none _ _ Hf item Hin) in Hh. discriminate Hh. }
  split.
  - intros [Hmode Hex].
    apply (reason_story_raises analyze _retrieve_context query force_mode
             domain_override Hmode).
    apply Hfound. exact Hex.
  - intro Hno.
    unfold ReasoningEngine.reason. fold analysis.
    unfold context_data in *. 
    destruct (_retrieve_context analysis domain_override) as [ctx sources].
    simpl fst in *. fold found. fold mode.
    assert (Hctx : (0 <? List.length ctx)%nat = true <-> ctx <> []).
    { destruct ctx; simpl; split; intro H; try discriminate; try reflexivity.
      contradiction H. reflexivity. }
    destruct (String.eqb_spec mode "story") as [Hm | Hm].
    + assert (Hempty : found = []).
      { destruct found as [| i l] eqn:E; [reflexivity |].
        exfalso. apply Hno. split; [exact Hm |].
        apply Hfound. discriminate. }
      rewrite Hempty. simpl ReasoningEngine._select_primary_insight. simpl bind.
      eexists. split; [reflexivity |]. simpl.
      repeat split; try reflexivity; apply Hctx.
    + simpl bind. eexists. split; [reflexivity |]. simpl.
      repeat split; try reflexivity; apply Hctx.
Qed.

(** [reason] raises [TypeError] when the output mode is "story" and some
    context item has historical depth; in every other case it returns a
    result, whose narrative is absent.  So no result of [reason] carries a
    narrative. *)
Theorem reason_outcome (query : string) (force_mode domain_override : option string) :
  let analysis := analyze query in
  let context_data := fst (_retrieve_context analysis domain_override) in
  let found := ReasoningEngine._detect_insights context_data analysis in
  let mode := ReasoningEngine._decide_output_mode analysis found force_mode in
  (mode = "story" /\ (exists item, In item context_data /\ has_historical item = true) ->
   ReasoningEngine.reason analyze _retrieve_context query force_mode domain_override
   = Raise TypeError)
  /\ (~ (mode = "story"
         /\ exists item, In item context_data /\ has_historical item = true) ->
      exists r,
        ReasoningEngine.reason analyze _retrieve_context query force_mode domain_override
        = Ok r
        /\ narrative r = None
        /\ output_mode r = mode
        /\ insights r = found
        /\ (context_found r = true <-> context_data <> [])).
Proof. exact (reason_cases query force_mode domain_override). Qed.

(** The overall confidence of a result of [reason] is 0 when nothing was
    retrieved, 0.3 when context was retrieved but no item has historical
    depth, and otherwise 0.3 + 0.7 * the relevance of the first item with
    historical depth, capped at 1. *)
Theorem reason_confidence_values (query : string)
  (force_mode domain_override : option string) (r : ReasoningResult) :
  ReasoningEngine.reason analyze _retrieve_context query force_mode domain_override
  = Ok r ->
  let context_data := fst (_retrieve_context (analyze query) domain_override) in
  match find has_historical context_data with
  | Some item => overall_confidence r == Qmin (0.3 + 0.7 * relevance item) 1
  | None =>
      match context_data with
      | [] => overall_confidence r == 0
      | _ => overall_confidence r == 0.3
      end
  end.
Proof.
  unfold ReasoningEngine.reason.
  destruct (_retrieve_context (analyze query) domain_override) as [ctx sources].
  simpl fst. unfold ReasoningEngine._detect_insights.
  destruct (find has_historical ctx) as [item |] eqn:Hf.
  - assert (Hne : (0 <? List.length ctx)%nat = true).
    { destruct ctx; [discriminate Hf | reflexivity]. }
    rewrite Hne. simpl ReasoningEngine._select_primary_insight.
    destruct (_ =? "story")%string.
    + cbv iota beta. rewrite generate_raises_on_none by reflexivity.
      simpl bind. discriminate.
    + simpl bind. intro H. injection H as <-. simpl overall_confidence.
      unfold ReasoningEngine._calculate_confidence. simpl confidence.
      apply Qmin_one_eq. unfold Qsum, len. simpl. field.
  - simpl ReasoningEngine._select_primary_insight.
    destruct (_ =? "story")%string; simpl bind; intro H; injection H as <-;
      simpl overall_confidence; destruct ctx; simpl; reflexivity.
Qed.

(** In a result of [reason] the recommended template is the five-frame
    story template exactly when the output mode is "story". *)
Theorem reason_template_story (query : string)
  (force_mode domain_override : option string) (r : ReasoningResult) :
  ReasoningEngine.reason analyze _retrieve_context query force_mode domain_override
  = Ok r ->
  (rr_recommended_template r = "story_five_frame" <-> output_mode r = "story").
Proof.
  unfold ReasoningEngine.reason.
  destruct (_retrieve_context (analyze query) domain_override) as [ctx sources].
  set (analysis := analyze query).
  set (found := ReasoningEngine._detect_insights ctx analysis).
  set (primary := ReasoningEngine._select_primary_insight found analysis).
  set (mode := ReasoningEngine._decide_output_mode analysis found force_mode).
  assert (Ht : mode <> "story" ->
               ReasoningEngine._select_template primary analysis mode
               <> "story_five_frame").
  { intro Hm. unfold ReasoningEngine._select_template.
    destruct (String.eqb_spec mode "story") as [E | _]; [contradiction (Hm E) |].
    destruct primary as [p |] eqn:Hp.
    - rewrite (detect_insights_template ctx analysis p); [discriminate |].
      apply select_primary_in with (analysis := analysis). exact Hp.
    - destruct (intent analysis); discriminate. }
  destruct (String.eqb_spec mode "story") as [Hm | Hm].
  - destruct primary as [p |].
    + destruct (generate p _ _) as [n | e]; simpl bind; intro H; [| discriminate H].
      injection H as <-. simpl. unfold ReasoningEngine._select_template.
      rewrite Hm. simpl. split; reflexivity.
    + simpl bind. intro H. injection H as <-. simpl.
      unfold ReasoningEngine._select_template. rewrite Hm. simpl.
      split; reflexivity.
  - simpl bind. intro H. injection H as <-. simpl.
    split; intro K; [contradiction (Ht Hm K) | contradiction (Hm K)].
Qed.

End ReasonOutcome.

Lemma reason_outcome_witness :
  ReasoningEngine.reason (fun _ => literacy_changed) literacy_store
    "How has literacy changed in Telangana?" None None = Raise TypeError.
Proof.
  apply (proj1 (reason_outcome (fun _ => literacy_changed) literacy_store
                  "How has literacy changed in Telangana?" None None)).
  split; [reflexivity |].
  eexists. split; [right; left; reflexivity | reflexivity].
Defined.

Lemma reason_confidence_values_witness :
  exists r,
    ReasoningEngine.reason (fun _ => highest_literacy) literacy_store
      "Which district has the highest literacy rate?" None None = Ok r
    /\ overall_confidence r == Qmin (0.3 + 0.7 * 0.8) 1.
Proof.
  eexists. split; [reflexivity |].
  apply (reason_confidence_values (fun _ => highest_literacy) literacy_store
           "Which district has the highest literacy rate?" None None _ eq_refl).
Defined.

Lemma reason_template_story_witness :
  exists r,
    ReasoningEngine.reason (fun _ => highest_literacy) literacy_store
      "Which district has the highest literacy rate?" None None = Ok r
    /\ (rr_recommended_template r = "story_five_frame" <-> output_mode r = "story").
Proof.
  eexists. split; [reflexivity |].
  apply (reason_template_story (fun _ => highest_literacy) literacy_store
           "Which district has the highest literacy rate?" None None _ eq_refl).
Defined.

(** * Properties of the query analyzer *)

Lemma in_list_true (s : string) (l : list string) :
  QueryAnalyzer.in_list s l = true <-> In s l.
Proof.
  unfold QueryAnalyzer.in_list. rewrite existsb_exists. split.
  - intros [x [Hx He]]. apply String.eqb_eq in He. subst. exact Hx.
  - intro H. exists s. split; [exact H | apply String.eqb_refl].
Qed.

Lemma add_topic_invariant (query : string) (keywords : list string) :
  forall topics,
    NoDup topics ->
    (forall t, In t topics -> contains t query = true) ->
    let result := fold_left (QueryAnalyzer.add_topic query) keywords topics in
    NoDup result
    /\ (forall t, In t result ->
          contains t query = true /\ (In t topics \/ In t keywords))
    /\ (forall kw, In kw keywords -> contains kw query = true -> In kw result)
    /\ (forall t, In t topics -> In t result).
Proof.
  induction keywords as [| kw rest IH]; intros topics Hnd Hin; simpl.
  - split; [exact Hnd |]. split; [| split].
    + intros t Ht. split; [apply Hin; exact Ht | left; exact Ht].
    + intros kw [].
    + intros t Ht. exact Ht.
  - set (next := QueryAnalyzer.add_topic query topics kw).
    assert (Hstep : NoDup next
                    /\ (forall t, In t next -> contains t query = true)
                    /\ (forall t, In t next -> In t topics \/ kw = t)
                    /\ (forall t, In t topics -> In t next)
                    /\ (contains kw query = true -> In kw next)).
    { unfold next, QueryAnalyzer.add_topic.
      destruct (contains kw query) eqn:Hc; simpl andb.
      - destruct (QueryAnalyzer.in_list kw topics) eqn:Hl; simpl negb; cbv iota.
        + apply in_list_true in Hl. repeat split; auto.
        + assert (Hn : ~ In kw topics).
          { intro K. apply in_list_true in K. rewrite K in Hl. discriminate Hl. }
          split; [| split; [| split; [| split]]].
          * apply NoDup_app; [exact Hnd | constructor; [intros [] | constructor] |].
            intros x Hx [<- | []]. exact (Hn Hx).
          * intros t Ht. apply in_app_or in Ht.
            destruct Ht as [Ht | [<- | []]]; [apply Hin; exact Ht | exact Hc].
          * intros t Ht. apply in_app_or in Ht.
            destruct Ht as [Ht | [<- | []]]; [left; exact Ht | right; reflexivity].
          * intros t Ht. apply in_or_app. left. exact Ht.
          * intros _. apply in_or_app. right. left. reflexivity.
      - repeat split; auto. intro K. discriminate K. }
    destruct Hstep as [S1 [S2 [S3 [S4 S5]]]].
    destruct (IH next S1 S2) as [R1 [R2 [R3 R4]]].
    split; [exact R1 |]. split; [| split].
    + intros t Ht. destruct (R2 t Ht) as [A B]. split; [exact A |].
      destruct B as [B | B]; [| right; right; exact B].
      destruct (S3 t B) as [C | C]; [left; exact C | right; left; exact C].
    + intros k [<- | Hk] Hk'; [apply R4; apply S5; exact Hk' | apply R3; assumption].
    + intros t Ht. apply R4. apply S4. exact Ht.
Qed.

Lemma NoDup_firstn {A} (n : nat) (l : list A) : NoDup l -> NoDup (firstn n l).
Proof.
  intro H. rewrite <- (firstn_skipn n l) in H.
  apply NoDup_app_remove_r in H. exact H.
Qed.

Lemma in_firstn {A} (n : nat) (l : list A) (x : A) : In x (firstn n l) -> In x l.
Proof.
  intro H. rewrite <- (firstn_skipn n l). apply in_or_app. left. exact H.
Qed.

(** What [_extract_topics] collects. *)
Lemma extract_topics_cases (query : string) :
  let topics := QueryAnalyzer._extract_topics query in
  (List.length topics <= 5)%nat
  /\ NoDup topics
  /\ (forall t, In t topics ->
        contains t query = true
        /\ exists domain keywords,
             In (domain, keywords) QueryAnalyzer.DOMAIN_KEYWORDS /\ In t keywords)
  /\ ((List.length topics < 5)%nat ->
      forall domain keywords kw,
        In (domain, keywords) QueryAnalyzer.DOMAIN_KEYWORDS -> In kw keywords ->
        contains kw query = true -> In kw topics).
Proof.
  unfold QueryAnalyzer._extract_topics.
  set (keywords := flat_map snd QueryAnalyzer.DOMAIN_KEYWORDS).
  destruct (add_topic_invariant query keywords [] (NoDup_nil _))
    as [R1 [R2 [R3 _]]]; [intros t [] |].
  set (all := fold_left (QueryAnalyzer.add_topic query) keywords []) in *.
  split; [apply firstn_le_length |].
  split; [apply NoDup_firstn; exact R1 |].
  split.
  - intros t Ht. apply in_firstn in Ht. destruct (R2 t Ht) as [A [[] | B]].
    split; [exact A |].
    unfold keywords in B. apply in_flat_map in B.
    destruct B as [[domain kws] [B1 B2]]. exists domain, kws. split; assumption.
  - intros Hlen domain kws kw Hd Hk Hc.
    assert (Hall : firstn 5 all = all).
    { apply firstn_all2. rewrite length_firstn in Hlen. lia. }
    rewrite Hall. apply R3; [| exact Hc].
    unfold keywords. apply in_flat_map. exists (domain, kws). split; assumption.
Qed.

(** [_extract_topics] returns at most five topics, without repetition;
    each is a keyword of some domain that occurs in the query, and when
    fewer than five are returned no keyword that occurs in the query is
    left out. *)
Theorem extract_topics_keywords (query : string) :
  let topics := QueryAnalyzer._extract_topics query in
  (List.length topics <= 5)%nat
  /\ NoDup topics
  /\ (forall t, In t topics ->
        contains t query = true
        /\ exists domain keywords,
             In (domain, keywords) QueryAnalyzer.DOMAIN_KEYWORDS /\ In t keywords)
  /\ ((List.length topics < 5)%nat ->
      forall domain keywords kw,
        In (domain, keywords) QueryAnalyzer.DOMAIN_KEYWORDS -> In kw keywords ->
        contains kw query = true -> In kw topics).
Proof. exact (extract_topics_cases query). Qed.

Lemma filter_nil_iff {A} (f : A -> bool) (l : list A) :
  filter f l = [] <-> forall x, In x l -> f x = false.
Proof.
  induction l as [| a l IH]; simpl.
  - split; [intros _ x [] | reflexivity].
  - destruct (f a) eqn:Hf.
    + split; [discriminate |].
      intro H. rewrite (H a (or_introl eq_refl)) in Hf. discriminate Hf.
    + rewrite IH. split.
      * intros H x [<- | Hx]; [exact Hf | apply H; exact Hx].
      * intros H x Hx. apply H. right. exact Hx.
Qed.

Lemma max_first_spec (l : list (string * nat)) :
  forall best,
    In (QueryAnalyzer.max_first best l) (best :: l)
    /\ forall x, In x (best :: l) ->
         (snd x <= snd (QueryAnalyzer.max_first best l))%nat.
Proof.
  induction l as [| y l IH]; intro best; simpl QueryAnalyzer.max_first.
  - split; [left; reflexivity |]. intros x [<- | []]. lia.
  - destruct (IH (if (snd best <? snd y)%nat then y else best)) as [H1 H2].
    destruct (snd best <? snd y)%nat eqn:Hlt.
    + apply Nat.ltb_lt in Hlt. split.
      * destruct H1 as [H1 | H1]; [right; left; exact H1 | right; right; exact H1].
      * intros x [<- | [<- | Hx]].
        -- assert (K := H2 y (or_introl eq_refl)). lia.
        -- apply H2. left. reflexivity.
        -- apply H2. right. exact Hx.
    + apply Nat.ltb_ge in Hlt. split.
      * destruct H1 as [H1 | H1]; [left; exact H1 | right; right; exact H1].
      * intros x [<- | [<- | Hx]].
        -- apply H2. left. reflexivity.
        -- assert (K := H2 best (or_introl eq_refl)). lia.
        -- apply H2. right. exact Hx.
Qed.

(** The two answers of [_infer_domain]. *)
Lemma infer_domain_cases (query : string) (topics : list string) :
  (QueryAnalyzer._infer_domain query topics = None
   <-> forall domain keywords,
         In (domain, keywords) QueryAnalyzer.DOMAIN_KEYWORDS ->
         QueryAnalyzer.domain_score query topics keywords = 0%nat)
  /\ forall domain,
       QueryAnalyzer._infer_domain query topics = Some domain ->
       exists keywords,
         In (domain, keywords) QueryAnalyzer.DOMAIN_KEYWORDS
         /\ (0 < QueryAnalyzer.domain_score query topics keywords)%nat
         /\ forall domain' keywords',
              In (domain', keywords') QueryAnalyzer.DOMAIN_KEYWORDS ->
              (QueryAnalyzer.domain_score query topics keywords'
               <= QueryAnalyzer.domain_score query topics keywords)%nat.
Proof.
  unfold QueryAnalyzer._infer_domain, QueryAnalyzer.domain_scores.
  set (scored := map (fun d : string * list string =>
                        (fst d, QueryAnalyzer.domain_score query topics (snd d)))
                     QueryAnalyzer.DOMAIN_KEYWORDS).
  assert (Hscored : forall x, In x scored <->
            exists domain keywords,
              In (domain, keywords) QueryAnalyzer.DOMAIN_KEYWORDS
              /\ x = (domain, QueryAnalyzer.domain_score query topics keywords)).
  { intro x. unfold scored. rewrite in_map_iff. split.
    - intros [[d kws] [Hx Hd]]. exists d, kws. split; [exact Hd |]. symmetry. exact Hx.
    - intros [d [kws [Hd Hx]]]. exists (d, kws). split; [symmetry; exact Hx | exact Hd]. }
  destruct (filter (fun ds : string * nat => (0 <? snd ds)%nat) scored)
    as [| best rest] eqn:Hf.
  - split; [| discriminate].
    split; [| reflexivity]. intros _ domain keywords Hd.
    assert (Hin : In (domain, QueryAnalyzer.domain_score query topics keywords) scored).
    { apply Hscored. exists domain, keywords. split; [exact Hd | reflexivity]. }
    apply (proj1 (filter_nil_iff _ _) Hf) in Hin. simpl in Hin.
    apply Nat.ltb_ge in Hin. lia.
  - split.
    + split; [discriminate |]. intro H. exfalso.
      assert (Hb : In best (filter (fun ds : string * nat => (0 <? snd ds)%nat) scored)).
      { rewrite Hf. left. reflexivity. }
      apply filter_In in Hb. destruct Hb as [Hb1 Hb2].
      apply Hscored in Hb1. destruct Hb1 as [d [kws [Hd ->]]].
      simpl in Hb2. apply Nat.ltb_lt in Hb2. rewrite (H d kws Hd) in Hb2. lia.
    + intros domain H. injection H as <-.
      destruct (max_first_spec rest best) as [M1 M2].
      set (m := QueryAnalyzer.max_first best rest) in *.
      assert (Hm : In m (filter (fun ds : string * nat => (0 <? snd ds)%nat) scored)).
      { rewrite Hf. exact M1. }
      apply filter_In in Hm. destruct Hm as [Hm1 Hm2].
      apply Hscored in Hm1. destruct Hm1 as [d [kws [Hd Hmd]]].
      rewrite Hmd in Hm2. simpl snd in Hm2. apply Nat.ltb_lt in Hm2.
      rewrite Hmd. simpl fst.
      exists kws. split; [exact Hd |]. split; [exact Hm2 |].
      intros d' kws' Hd'.
      destruct (QueryAnalyzer.domain_score query topics kws') as [| n] eqn:Hs; [lia |].
      assert (Hin : In (d', S n)
                       (filter (fun ds : string * nat => (0 <? snd ds)%nat) scored)).
      { apply filter_In. split; [| reflexivity].
        apply Hscored. exists d', kws'. split; [exact Hd' |]. rewrite Hs. reflexivity. }
      rewrite Hf in Hin. apply M2 in Hin. rewrite Hmd in Hin. exact Hin.
Qed.

(** [_infer_domain] answers [None] exactly when no keyword of any domain
    occurs in the query or among the topics; otherwise it answers a domain
    with at least one such keyword, and no domain has more of them. *)
Theorem infer_domain_best (query : string) (topics : list string) :
  (QueryAnalyzer._infer_domain query topics = None
   <-> forall domain keywords,
         In (domain, keywords) QueryAnalyzer.DOMAIN_KEYWORDS ->
         QueryAnalyzer.domain_score query topics keywords = 0%nat)
  /\ forall domain,
       QueryAnalyzer._infer_domain query topics = Some domain ->
       exists keywords,
         In (domain, keywords) QueryAnalyzer.DOMAIN_KEYWORDS
         /\ (0 < QueryAnalyzer.domain_score query topics keywords)%nat
         /\ forall domain' keywords',
              In (domain', keywords') QueryAnalyzer.DOMAIN_KEYWORDS ->
              (QueryAnalyzer.domain_score query topics keywords'
               <= QueryAnalyzer.domain_score query topics keywords)%nat.
Proof. exact (infer_domain_cases query topics). Qed.

(** [_build_search_keywords] returns at most ten keywords; each is a topic,
    a lower-cased location, or a metric other than "rate", "percentage" and
    "number"; the topics come first when there are at most ten of them. *)
Theorem build_search_keywords_sources (topics locations metrics : list string) :
  let keywords := QueryAnalyzer._build_search_keywords topics locations metrics in
  (List.length keywords <= 10)%nat
  /\ (forall k, In k keywords ->
        In k topics
        \/ (exists loc, In loc locations /\ k = lower loc)
        \/ (In k metrics /\ k <> "rate" /\ k <> "percentage" /\ k <> "number"))
  /\ ((List.length topics <= 10)%nat ->
      exists others, keywords = (topics ++ others)%list).
Proof.
  unfold QueryAnalyzer._build_search_keywords.
  split; [apply firstn_le_length |]. split.
  - intros k Hk. apply in_firstn in Hk.
    apply in_app_or in Hk. destruct Hk as [Hk | Hk]; [left; exact Hk |].
    apply in_app_or in Hk. destruct Hk as [Hk | Hk].
    + right. left. apply in_map_iff in Hk. destruct Hk as [loc [<- Hloc]].
      exists loc. split; [exact Hloc | reflexivity].
    + right. right. apply filter_In in Hk. destruct Hk as [Hk1 Hk2].
      split; [exact Hk1 |].
      repeat split; intro E; subst k; discriminate Hk2.
  - intro Hlen. rewrite firstn_app.
    rewrite (firstn_all2 topics Hlen). eexists. reflexivity.
Qed.

Lemma domain_score_zero (query : string) (topics keywords : list string) :
  QueryAnalyzer.domain_score query topics keywords = 0%nat
  <-> forall kw, In kw keywords ->
        contains kw query = false /\ QueryAnalyzer.in_list kw topics = false.
Proof.
  unfold QueryAnalyzer.domain_score. rewrite length_zero_iff_nil, filter_nil_iff.
  split; intros H kw Hkw.
  - apply orb_false_iff. apply H. exact Hkw.
  - apply orb_false_iff. apply H. exact Hkw.
Qed.

Section Analysis.

Variable _normalize : string -> string.
Variable _detect_intent : string -> QueryIntent.t * Q.
Variable _extract_time_references : string -> list string.

(** The flags of an analysis: the preferred output is "story" exactly when
    historical data is required, and "data" otherwise; a trend intent, or
    two time references, require historical data; a comparison or ranking
    intent requires a comparison; there are at most five topics and ten
    search keywords; and a domain hint is present exactly when a topic was
    found. *)
Theorem analyze_flags (query : string) :
  let a := QueryAnalyzer.analyze _normalize _detect_intent _extract_time_references
             query in
  (preferred_output a = "story" <-> requires_historical a = true)
  /\ (preferred_output a = "data" <-> requires_historical a = false)
  /\ (intent a = QueryIntent.TREND -> requires_historical a = true)
  /\ ((2 <= List.length (time_references a))%nat -> requires_historical a = true)
  /\ (intent a = QueryIntent.COMPARISON \/ intent a = QueryIntent.RANKING ->
      requires_comparison a = true)
  /\ (List.length (topics a) <= 5)%nat
  /\ (List.length (search_keywords a) <= 10)%nat
  /\ (domain_hint a = None <-> topics a = []).
Proof.
  unfold QueryAnalyzer.analyze.
  destruct (_detect_intent (_normalize query)) as [i c].
  cbv zeta.
  cbn [preferred_output requires_historical requires_comparison intent
       time_references topics search_keywords domain_hint].
  set (normalized := _normalize query).
  split; [| split; [| split; [| split; [| split; [| split; [| split]]]]]].
  - destruct (_ || _ || _); split; intro H; try reflexivity; discriminate H.
  - destruct (_ || _ || _); split; intro H; try reflexivity; discriminate H.
  - intros ->. reflexivity.
  - intro H. apply Nat.leb_le in H. rewrite H. rewrite orb_true_r. reflexivity.
  - intros [-> | ->]; reflexivity.
  - apply (extract_topics_cases normalized).
  - apply firstn_le_length.
  - destruct (extract_topics_cases normalized) as [T1 [_ [T3 T4]]].
    destruct (infer_domain_cases normalized (QueryAnalyzer._extract_topics normalized))
      as [D1 _].
    rewrite D1. split.
    + intro H.
      destruct (QueryAnalyzer._extract_topics normalized) as [| t l] eqn:Ht;
        [reflexivity |].
      destruct (T3 t (or_introl eq_refl)) as [Hc [d [kws [Hd Hk]]]].
      apply (proj1 (domain_score_zero _ _ _) (H d kws Hd)) in Hk.
      destruct Hk as [Hk _]. rewrite Hk in Hc. discriminate Hc.
    + intros Ht d kws Hd. apply domain_score_zero. intros kw Hkw.
      rewrite Ht in *. split; [| reflexivity].
      destruct (contains kw normalized) eqn:Hc; [| reflexivity].
      exfalso. apply (T4 (Nat.lt_0_succ 4) d kws kw Hd Hkw Hc).
Qed.

Variable _retrieve_context :
  QueryAnalysis -> option string -> list ContextItem * list string.

(** A question with the trend intent and no forced mode: the output mode is
    "story"; when some retrieved item has historical depth [reason] raises
    [TypeError], and otherwise it returns a result in story mode without
    insights and without a narrative. *)
Theorem trend_question_outcome (query : string) (domain_override : option string) :
  let analyze :=
    QueryAnalyzer.analyze _normalize _detect_intent _extract_time_references in
  let context_data := fst (_retrieve_context (analyze query) domain_override) in
  fst (_detect_intent (_normalize query)) = QueryIntent.TREND ->
  ((exists item, In item context_data /\ has_historical item = true) ->
   ReasoningEngine.reason analyze _retrieve_context query None domain_override
   = Raise TypeError)
  /\ ((forall item, In item context_data -> has_historical item = false) ->
      exists r,
        ReasoningEngine.reason analyze _retrieve_context query None domain_override
        = Ok r
        /\ output_mode r = "story"
        /\ insights r = []
        /\ narrative r = None).
Proof.
  intros analyze context_data Hintent.
  assert (Hmode : forall found,
            ReasoningEngine._decide_output_mode (analyze query) found None = "story").
  { intro found. unfold ReasoningEngine._decide_output_mode, analyze,
      QueryAnalyzer.analyze.
    destruct (_detect_intent (_normalize query)) as [i c].
    simpl in Hintent. subst i. simpl. rewrite orb_true_r. reflexivity. }
  destruct (reason_cases analyze _retrieve_context query None domain_override)
    as [C1 C2].
  fold context_data in C1, C2.
  split.
  - intro Hex. apply C1. split; [apply Hmode | exact Hex].
  - intro Hno. destruct C2 as [r [Hr [Hn [Hm [Hi _]]]]].
    + intros [_ [item [Hin Hh]]]. rewrite (Hno item Hin) in Hh. discriminate Hh.
    + exists r. split; [exact Hr |]. split; [rewrite Hm; apply Hmode |].
      split; [| exact Hn]. rewrite Hi.
      unfold ReasoningEngine._detect_insights.
      destruct (find has_historical context_data) as [item |] eqn:Hf; [| reflexivity].
      destruct (find_some _ _ Hf) as [Hin Hh].
      rewrite (Hno item Hin) in Hh. discriminate Hh.
Qed.

End Analysis.

Lemma analyze_flags_witness :
  requires_historical
    (QueryAnalyzer.analyze (fun _ => "how has literacy changed in telangana")
       (fun _ => (QueryIntent.TREND, 0.5)) (fun _ => [])
       "How has literacy changed in Telangana?") = true.
Proof.
  apply (proj1 (proj2 (proj2
           (analyze_flags (fun _ => "how has literacy changed in telangana")
              (fun _ => (QueryIntent.TREND, 0.5)) (fun _ => [])
              "How has literacy changed in Telangana?")))).
  reflexivity.
Defined.

Lemma trend_question_outcome_witness :
  ReasoningEngine.reason
    (QueryAnalyzer.analyze (fun _ => "how has literacy changed in telangana")
       (fun _ => (QueryIntent.TREND, 0.5)) (fun _ => []))
    literacy_store "How has literacy changed in Telangana?" None None
  = Raise TypeError.
Proof.
  apply (proj1 (trend_question_outcome
                  (fun _ => "how has literacy changed in telangana")
                  (fun _ => (QueryIntent.TREND, 0.5)) (fun _ => [])
                  literacy_store "How has literacy changed in Telangana?" None
                  eq_refl)).
  eexists. split; [right; left; reflexivity | reflexivity].
Defined.

Lemma extract_topics_keywords_witness :
  QueryAnalyzer._extract_topics "how has literacy changed in telangana" = ["literacy"]
  /\ contains "literacy" "how has literacy changed in telangana" = true.
Proof.
  split; [reflexivity |].
  apply (proj1 (proj2 (proj2 (extract_topics_keywords
                                "how has literacy changed in telangana")))
           "literacy" (or_introl eq_refl)).
Defined.

Lemma infer_domain_best_witness :
  exists keywords,
    In ("education", keywords) QueryAnalyzer.DOMAIN_KEYWORDS
    /\ (0 < QueryAnalyzer.domain_score "how has literacy changed in telangana"
              ["literacy"] keywords)%nat.
Proof.
  destruct (proj2 (infer_domain_best "how has literacy changed in telangana"
                     ["literacy"]) "education" eq_refl) as [kws [H1 [H2 _]]].
  exists kws. split; assumption.
Defined.

Lemma build_search_keywords_sources_witness :
  exists others,
    QueryAnalyzer._build_search_keywords ["literacy"] ["District"] ["rate"]
    = (["literacy"] ++ others)%list.
Proof.
  apply (proj2 (proj2 (build_search_keywords_sources ["literacy"] ["District"]
                         ["rate"]))).
  simpl. lia.
Defined.

(** The analyses used in the scenarios are what the keyword scans give on
    the normalized text of the two questions, for the intent the patterns
    select. *)
Lemma analyze_literacy_changed :
  QueryAnalyzer.analyze (fun _ => "how has literacy changed in telangana")
    (fun _ => (QueryIntent.TREND, 0.5)) (fun _ => [])
    "How has literacy changed in Telangana?" = literacy_changed.
Proof. reflexivity. Qed.

Lemma analyze_highest_literacy :
  QueryAnalyzer.analyze (fun _ => "which district has the highest literacy rate")
    (fun _ => (QueryIntent.RANKING, 1)) (fun _ => [])
    "Which district has the highest literacy rate?" = highest_literacy.
Proof. reflexivity. Qed.

(** * Further properties of the narrative builder *)

(** The narrative of an insight carries the insight's confidence and
    sentiment and the given domain and source.  Its context and evidence
    frames have a key metric (the call returns only for an insight with a
    previous value), its change frame has one exactly when the insight has
    a change percentage, its consequence and implication frames have none;
    its time period is "Recent Period" exactly when the insight has no time
    range. *)
Theorem generate_frames_content (insight : DetectedInsight) (domain source : string)
  (n : Narrative) :
  generate insight domain source = Ok n ->
  n_confidence n = confidence insight
  /\ n_sentiment n = Sentiment_value (sentiment insight)
  /\ n_domain n = domain
  /\ source_attribution n = source
  /\ key_metric (n_context n) <> None
  /\ (key_metric (n_change n) = None <-> change_percentage insight = None)
  /\ key_metric (n_evidence n) <> None
  /\ key_metric (n_consequence n) = None
  /\ key_metric (n_implication n) = None
  /\ (time_period n = [Lit "Recent Period"] <-> time_range insight = None).
Proof.
  unfold generate, _generate_context, _generate_change, _generate_evidence.
  destruct (change_percentage insight);
    destruct (previous_value insight);
    destruct (current_value insight); simpl; intro H;
    try discriminate H; injection H as <-; simpl;
    destruct (time_range insight) as [[t0 t1] |];
    repeat split; try reflexivity; try discriminate; intro K; discriminate K.
Qed.

Lemma generate_frames_content_witness :
  exists n,
    generate literacy_insight "education" "Telangana Education Statistics" = Ok n
    /\ n_confidence n = 0.85
    /\ key_metric (n_consequence n) = None.
Proof.
  eexists. split; [reflexivity |].
  destruct (generate_frames_content literacy_insight "education"
              "Telangana Education Statistics" _ eq_refl)
    as [H1 [_ [_ [_ [_ [_ [_ [H2 _]]]]]]]].
  split; assumption.
Defined.
